(** * Mental Model Chat: the turn-state machine of [app3.py]

    A shallow embedding of the Streamlit script [src/app3.py]: the two
    inferencers that sanitise the replies of the text-generation service,
    the sidebar block that locks the mental model, and the execution of a
    turn, followed by the properties of the specification that concern
    them.

    Conventions of the embedding.
    - Python values are the type [pyval]; a [dict] with string keys is a
      [gmap string pyval]; a Python [float] is a binary64 primitive float,
      a Python [int] is a [Z].
    - A computation that can raise returns an [option]: [None] is "an
      exception was raised".  A [try]/[except Exception] block is the
      [match] that turns this [None] into the handler's result.
    - [st.session_state] is an explicit record threaded through every
      step; what the script shows or sends out is a list of [event]s.
    - The text-generation service is a black box: a function from the
      request to the reply, given with the inputs of a script run; the
      values the sidebar widgets return are inputs of the run as well.
    - Values stand for objects: the script never mutates a dict or a list
      element after storing it ([DEFAULT_MM] is always copied first), so
      sharing cannot be observed.
    - Building the client, [OpenAI(api_key=api_key)], is taken not to
      raise; the script reaches it with a non-empty key only. *)

From Stdlib Require Import ZArith Floats.
From stdpp Require Import gmap strings list fin_maps.

Set Warnings "-inexact-float,-register-all".
Open Scope Z_scope.

(** ** Python values *)

Inductive pyval : Type :=
  | PNone
  | PBool (b : bool)
  | PInt (z : Z)
  | PFloat (f : float)
  | PStr (s : string)
  | PList (l : list pyval)
  | PDict (d : gmap string pyval).

Abbreviation dict := (gmap string pyval).

(** ** Floating-point numbers as Python uses them *)

Module PyFloat.

(** [float(z)] for an [int]: rounded to the nearest binary64, ties to
    even; [OverflowError] when the rounded value is not finite. *)
Definition of_int (z : Z) : option float :=
  match binary_normalize prec emax z 0 false with
  | S754_infinity _ => None
  | sf => Some (SF2Prim sf)
  end.

Definition of_bool (b : bool) : float := if b then 1%float else 0%float.

(** [min(a, b)] and [max(a, b)] of two arguments: the first argument is
    kept unless the second is strictly smaller (resp. greater). *)
Definition py_min (a b : float) : float := if PrimFloat.ltb b a then b else a.
Definition py_max (a b : float) : float := if PrimFloat.ltb a b then b else a.

(** [0.0 <= f <= 1.0] *)
Definition in_unit (f : float) : bool :=
  PrimFloat.leb 0 f && PrimFloat.leb f 1.

(** [abs(a - b) > 1e-6] *)
Definition apart (a b : float) : bool :=
  PrimFloat.ltb 1e-6 (PrimFloat.abs (PrimFloat.sub a b)).

End PyFloat.

(** [isinstance(v, (int, float))]; [bool] is a subclass of [int]. *)
Definition is_number (v : pyval) : bool :=
  match v with
  | PBool _ | PInt _ | PFloat _ => true
  | _ => false
  end.

(** [float(v)] for a [v] with [is_number v]. *)
Definition float_of_number (v : pyval) : option float :=
  match v with
  | PBool b => Some (PyFloat.of_bool b)
  | PInt z => PyFloat.of_int z
  | PFloat f => Some f
  | _ => None
  end.

(** [bool(v)], the truth value of [v]. *)
Definition py_bool (v : pyval) : bool :=
  match v with
  | PNone => false
  | PBool b => b
  | PInt z => negb (z =? 0)
  | PFloat f => negb (PrimFloat.eqb f 0)
  | PStr s => negb (String.eqb s "")
  | PList l => match l with [] => false | _ => true end
  | PDict d => negb (bool_decide (d = ∅))
  end.

(** [k in s] for two strings: [k] occurs in [s]. *)
Fixpoint is_substring (k s : string) : bool :=
  String.prefix k s ||
  match s with
  | EmptyString => false
  | String _ s' => is_substring k s'
  end.

(** [k in c] for a string [k]; [TypeError] when [c] is not a container. *)
Definition py_contains (k : string) (c : pyval) : option bool :=
  match c with
  | PDict d => Some (bool_decide (is_Some (d !! k)))
  | PList l =>
      Some (existsb (fun x => match x with PStr s => String.eqb s k | _ => false end) l)
  | PStr s => Some (is_substring k s)
  | _ => None
  end.

(** [c[k]] for a string [k]: defined on a [dict] that has the key. *)
Definition py_getitem (c : pyval) (k : string) : option pyval :=
  match c with
  | PDict d => d !! k
  | _ => None
  end.

(** ** What a script run shows and sends *)

Inductive event : Type :=
  | Warning (msg : string)
  | Error (msg : string)
  | CallMentalModel (model_name text : string)
  | CallAssumptions (model_name conversation_text : string)
  | CallResponse (model_name combined_prompt : string)
  | ChatMessage (role content : string)
  | Rerun.

(** The service behind [client.responses.create].  For the two inference
    calls the reply is what [json.loads(resp.output_text)] returns, [None]
    when the call or the parser raises; for the response call it is
    [resp.output_text], [None] when the call raises.  Arguments: API key,
    model name, and the text the request is built from. *)
Record llm_service : Type := {
  mental_model_reply : string -> string -> string -> option pyval;
  assumptions_reply : string -> string -> string -> option pyval;
  response_reply : string -> string -> string -> option string;
}.

(** ** Session defaults *)

Definition DEFAULT_MM_items : list (string * pyval) :=
  [ ("user_certainty", PFloat 0.5);
    ("model_seen_as_expert", PFloat 0.8);
    ("expects_correction", PBool true);
    ("validation_seeking", PFloat 0.5);
    ("objectivity_seeking", PFloat 0.5);
    ("empathy_expectation", PFloat 0.5);
    ("directness", PFloat 0.5);
    ("informativeness", PFloat 0.7);
    ("assistant_role", PStr "Neutral assistant") ].

Definition DEFAULT_MM : dict := list_to_map DEFAULT_MM_items.

(** The keys of [DEFAULT_MM], in the order a [for k in cleaned] visits them. *)
Definition mm_keys : list string := DEFAULT_MM_items.*1.

(** The seven fields the specification calls probabilities. *)
Definition probability_fields : list string :=
  [ "user_certainty"; "model_seen_as_expert"; "validation_seeking";
    "objectivity_seeking"; "empathy_expectation"; "directness";
    "informativeness" ].

Definition role_options : list string :=
  [ "Neutral assistant"; "Expert"; "Friend/peer"; "Therapist-like listener" ].

(** ** The Mental-Model Inferencer *)

(** The text of [st.warning], without the text of the exception that the
    source appends to it. *)
Definition mm_warning : string :=
  "Failed to parse mental-model JSON, using defaults.".

(** The loop [for k in cleaned: if k in mm: cleaned[k] = mm[k]]. *)
Fixpoint overwrite_present (keys : list string) (mm : pyval) (cleaned : dict)
  : option dict :=
  match keys with
  | [] => Some cleaned
  | k :: keys' =>
      match py_contains k mm with
      | None => None
      | Some true =>
          match py_getitem mm k with
          | None => None
          | Some v => overwrite_present keys' mm (<[k := v]> cleaned)
          end
      | Some false => overwrite_present keys' mm cleaned
      end
  end.

(** The body of the [try] block, after the call. *)
Definition mm_try (reply : option pyval) : option dict :=
  match reply with
  | None => None
  | Some mm => overwrite_present mm_keys mm DEFAULT_MM
  end.

Definition infer_mental_model_with_llm
    (svc : llm_service) (text api_key model_name : string)
  : dict * list event :=
  match mm_try (mental_model_reply svc api_key model_name text) with
  | Some cleaned => (cleaned, [CallMentalModel model_name text])
  | None => (DEFAULT_MM, [CallMentalModel model_name text; Warning mm_warning])
  end.

(** A field of a mental model lies in [[0,1]]: it is a number between
    [0.0] and [1.0]. *)
Definition field_in_unit (mm : dict) (k : string) : bool :=
  match mm !! k with
  | Some v =>
      match float_of_number v with
      | Some f => PyFloat.in_unit f
      | None => false
      end
  | None => false
  end.

(** ** Session state *)

Record message : Type := { role : string; content : string }.

Record assumption_entry : Type := {
  assumption : string;
  probability : float;
  evidence : string;
}.

(** The dict [{"assumptions": cleaned}] an inference returns. *)
Record assumption_set : Type := { assumptions : list assumption_entry }.

Record history_entry : Type := {
  h_turn_index : Z;
  h_timestamp : string;
  h_assumptions : assumption_set;
}.

Record turn_log : Type := {
  log_turn_index : Z;
  log_timestamp : string;
  log_mm_locked : bool;
  log_mental_model : dict;
  log_mental_model_source : string;
  log_assumptions : assumption_set;
  log_user_message : string;
  log_assistant_message : string;
  log_combined_prompt : string;
  log_conversation_so_far : list message;
}.

Record session_state : Type := {
  messages : list message;
  mm_values : dict;
  turn_index : Z;
  turn_logs : list turn_log;
  mm_locked : bool;
  assumptions_latest : option assumption_set;
  assumptions_history : list history_entry;
}.

(** The state the [if "..." not in st.session_state] blocks create. *)
Definition initial_state : session_state := {|
  messages := [];
  mm_values := DEFAULT_MM;
  turn_index := 0;
  turn_logs := [];
  mm_locked := false;
  assumptions_latest := None;
  assumptions_history := [];
|}.

Definition set_messages (ms : list message) (s : session_state) : session_state :=
  {| messages := ms; mm_values := mm_values s; turn_index := turn_index s;
     turn_logs := turn_logs s; mm_locked := mm_locked s;
     assumptions_latest := assumptions_latest s;
     assumptions_history := assumptions_history s |}.

Definition set_mm_values (mm : dict) (s : session_state) : session_state :=
  {| messages := messages s; mm_values := mm; turn_index := turn_index s;
     turn_logs := turn_logs s; mm_locked := mm_locked s;
     assumptions_latest := assumptions_latest s;
     assumptions_history := assumptions_history s |}.

Definition set_turn_index (n : Z) (s : session_state) : session_state :=
  {| messages := messages s; mm_values := mm_values s; turn_index := n;
     turn_logs := turn_logs s; mm_locked := mm_locked s;
     assumptions_latest := assumptions_latest s;
     assumptions_history := assumptions_history s |}.

Definition set_turn_logs (ls : list turn_log) (s : session_state) : session_state :=
  {| messages := messages s; mm_values := mm_values s; turn_index := turn_index s;
     turn_logs := ls; mm_locked := mm_locked s;
     assumptions_latest := assumptions_latest s;
     assumptions_history := assumptions_history s |}.

Definition set_mm_locked (b : bool) (s : session_state) : session_state :=
  {| messages := messages s; mm_values := mm_values s; turn_index := turn_index s;
     turn_logs := turn_logs s; mm_locked := b;
     assumptions_latest := assumptions_latest s;
     assumptions_history := assumptions_history s |}.

Definition set_assumptions (a : assumption_set) (h : history_entry)
    (s : session_state) : session_state :=
  {| messages := messages s; mm_values := mm_values s; turn_index := turn_index s;
     turn_logs := turn_logs s; mm_locked := mm_locked s;
     assumptions_latest := Some a;
     assumptions_history := assumptions_history s ++ [h] |}.

(** ** Sidebar: the controls and the lock *)

(** The values the nine widgets return in a script run. *)
Record controls : Type := {
  user_certainty : float;
  model_seen_as_expert : float;
  expects_correction : bool;
  validation_seeking : float;
  objectivity_seeking : float;
  empathy_expectation : float;
  directness : float;
  informativeness : float;
  assistant_role : string;
}.

(** A value of [current_from_controls]: the result of [float(...)], of
    [bool(...)], or the option the select box returns. *)
Inductive control_value : Type :=
  | CFloat (f : float)
  | CBool (b : bool)
  | CStr (s : string).

Definition to_py (v : control_value) : pyval :=
  match v with
  | CFloat f => PFloat f
  | CBool b => PBool b
  | CStr s => PStr s
  end.

(** [current_from_controls.items()], in insertion order. *)
Definition control_items (c : controls) : list (string * control_value) :=
  [ ("user_certainty", CFloat (user_certainty c));
    ("model_seen_as_expert", CFloat (model_seen_as_expert c));
    ("expects_correction", CBool (expects_correction c));
    ("validation_seeking", CFloat (validation_seeking c));
    ("objectivity_seeking", CFloat (objectivity_seeking c));
    ("empathy_expectation", CFloat (empathy_expectation c));
    ("directness", CFloat (directness c));
    ("informativeness", CFloat (informativeness c));
    ("assistant_role", CStr (assistant_role c)) ].

Definition current_from_controls (c : controls) : dict :=
  list_to_map (prod_map id to_py <$> control_items c).

(** One iteration of the comparison loop, for the pair [(v, old)]:
    [Some true] is [changed = True; break].  A [float] or [bool] control
    meets the [isinstance] test, so the tolerance branch is taken exactly
    when [old] is a number; [float(old)] raises on an [int] too large.  In
    the other branch [v != old] compares values of different kinds, which
    are never equal, or two strings. *)
Definition field_changed (v : control_value) (old : pyval) : option bool :=
  match v with
  | CFloat fv =>
      if is_number old
      then option_map (PyFloat.apart fv) (float_of_number old)
      else Some true
  | CBool b =>
      if is_number old
      then option_map (PyFloat.apart (PyFloat.of_bool b)) (float_of_number old)
      else Some true
  | CStr s =>
      match old with
      | PStr t => Some (negb (String.eqb s t))
      | _ => Some true
      end
  end.

(** [for k, v in current_from_controls.items(): old = mm[k] ...]; the
    result is the final value of [changed]. *)
Fixpoint changed (items : list (string * control_value)) (mm : dict)
  : option bool :=
  match items with
  | [] => Some false
  | (k, v) :: items' =>
      match mm !! k with
      | None => None
      | Some old =>
          match field_changed v old with
          | None => None
          | Some true => Some true
          | Some false => changed items' mm
          end
      end
  end.

(** The block "Lock mental model upon first explicit user change". *)
Definition lock_check (s : session_state) (c : controls) : option session_state :=
  let first_turn := turn_index s =? 0 in
  if negb first_turn && negb (mm_locked s) then
    match changed (control_items c) (mm_values s) with
    | None => None
    | Some true => Some (set_mm_values (current_from_controls c) (set_mm_locked true s))
    | Some false => Some s
    end
  else Some s.

(** ** The inputs of one script run *)

Record inputs : Type := {
  widgets : controls;
  api_key : string;
  mm_model_name : string;
  assumptions_model_name : string;
  response_model_name : string;
  user_input : option string;
  service : llm_service;
  (** [datetime.utcnow().isoformat() + "Z"] at the history append and in
      [log_turn]. *)
  now_history : string;
  now_log : string;
}.

(** How a script run ends: the session state it leaves, what it showed and
    sent, and whether an exception stopped it. *)
Record outcome : Type := {
  out_state : session_state;
  out_events : list event;
  out_raised : bool;
}.

Definition finished (s : session_state) (evs : list event) : outcome :=
  {| out_state := s; out_events := evs; out_raised := false |}.

Definition raised (s : session_state) (evs : list event) : outcome :=
  {| out_state := s; out_events := evs; out_raised := true |}.

Definition newline : string := String (Ascii.ascii_of_nat 10) EmptyString.

(** * The analysis script, [src/data/analysis.py]

    The loop of [load_and_flatten] that turns the conversation files
    into one row per turn.  The files found under [ROOT_DIR] are given
    as a list, each with its path, its category folder and what
    [json.load] returns for it; the [DataFrame] built from the rows, the
    averages and the chart belong to pandas and plotly and are not
    modelled. *)

(** [v.get(k, dflt)]: [AttributeError] unless [v] is a dict. *)
Definition py_get (v : pyval) (k : string) (dflt : pyval) : option pyval :=
  match v with
  | PDict d => Some (default dflt (d !! k))
  | _ => None
  end.

(** [v or {}] *)
Definition or_empty_dict (v : pyval) : pyval :=
  if py_bool v then v else PDict ∅.

Definition SCORE_COLS : list string :=
  ["informational"; "validation_esteem"; "emotional"].

(** A row appended to [rows]. *)
Record score_row : Type := {
  file_path : string;
  category : string;
  prompt_id : pyval;
  turnIndex : pyval;
  informational : pyval;
  validation_esteem : pyval;
  emotional : pyval;
}.

(** [(turn.get("mentalModel") or {}).get("mental_model", {})], then
    [(mm.get("support_seeking") or {})]. *)
Definition turn_support (turn : pyval) : option pyval :=
  wrapper ← py_get turn "mentalModel" PNone;
  mm ← py_get (or_empty_dict wrapper) "mental_model" (PDict ∅);
  seeking ← py_get mm "support_seeking" PNone;
  Some (or_empty_dict seeking).

(** [(support.get(signal) or {}).get("score")] *)
Definition signal_score (support : pyval) (signal : string) : option pyval :=
  entry ← py_get support signal PNone;
  py_get (or_empty_dict entry) "score" PNone.

(** The body of [for turn in turns]: the row appended, [None] when an
    attribute access raises. *)
Definition row_of_turn (path category_folder : string) (doc turn : pyval)
  : option score_row :=
  support ← turn_support turn;
  pid ← py_get doc "prompt_id" PNone;
  ti ← py_get turn "turnIndex" PNone;
  inf ← signal_score support "informational";
  val ← signal_score support "validation_esteem";
  emo ← signal_score support "emotional";
  Some {| file_path := path;
          category := category_folder;
          prompt_id := pid;
          turnIndex := ti;
          informational := inf;
          validation_esteem := val;
          emotional := emo |}.

(** The part of the loop body after a successful [json.load]: the rows
    of one document; a [turns] that is not a list is skipped. *)
Definition rows_of_doc (path category_folder : string) (doc : pyval)
  : option (list score_row) :=
  turns ← py_get doc "turns" (PList []);
  match turns with
  | PList l => mapM (row_of_turn path category_folder doc) l
  | _ => Some []
  end.

(** A file of [json_paths]: its path, [get_category_from_folder] of it,
    and the document [json.load] returns, [None] when opening or parsing
    raises. *)
Record json_file : Type := {
  jf_path : string;
  jf_category : string;
  jf_doc : option pyval;
}.

(** [load_and_flatten], up to the construction of the [DataFrame]: the
    list [rows] and the counter [bad_json]; [None] when an exception
    leaves the loop. *)
Fixpoint load_and_flatten (json_paths : list json_file)
  : option (list score_row * nat) :=
  match json_paths with
  | [] => Some ([], 0%nat)
  | f :: rest =>
      match jf_doc f with
      | None =>
          '(rows, bad_json) ← load_and_flatten rest;
          Some (rows, S bad_json)
      | Some doc =>
          here ← rows_of_doc (jf_path f) (jf_category f) doc;
          '(rows, bad_json) ← load_and_flatten rest;
          Some (here ++ rows, bad_json)
      end
  end.

(** A value [(v or {}).get(...)] reads as missing: the key is absent,
    or its value is falsy ([null], [false], [0], the empty string, list
    or object). *)
Definition reads_missing (v : option pyval) : bool :=
  match v with
  | None => true
  | Some x => negb (py_bool x)
  end.

Section Script.

(** Python built-ins the script calls and this development does not
    define: [float(s)] on a [str] ([None] is [ValueError]), [str(v)] on a
    value that is not a [str], and [format(f, ".2f")]. *)
Variable float_of_str : string -> option float.
Variable py_repr : pyval -> string.
Variable format_2f : float -> string.

(** Streamlit's [st.sidebar.slider(label, 0.0, 1.0, value, 0.1)] on a
    [float] value: [true] when the slider is built and shows the value,
    [false] when the call raises (as it does on an infinity, which is no
    number the page can hold). *)
Variable slider_accepts : float -> bool.

(** [str(v)] *)
Definition py_str (v : pyval) : string :=
  match v with
  | PStr s => s
  | _ => py_repr v
  end.

(** [float(v)]: [TypeError] on [None], a list or a dict. *)
Definition py_float (v : pyval) : option float :=
  match v with
  | PStr s => float_of_str s
  | PNone | PList _ | PDict _ => None
  | _ => float_of_number v
  end.

(** *** The Assumption Inferencer *)

Definition assumptions_warning : string := "Failed to parse assumptions JSON.".

(** [max(0.0, min(1.0, prob))] *)
Definition clamp01 (prob : float) : float :=
  PyFloat.py_max 0 (PyFloat.py_min 1 prob).

(** The body of the [for item in ...] loop: [Some None] is [continue],
    [Some (Some e)] is [cleaned.append(e)], [None] is an exception of
    [float(item["probability"])]. *)
Definition clean_item (item : pyval) : option (option assumption_entry) :=
  match item with
  | PDict d =>
      match d !! "assumption", d !! "probability" with
      | Some a, Some p =>
          match py_float p with
          | None => None
          | Some prob =>
              Some (Some {| assumption := py_str a;
                            probability := clamp01 prob;
                            evidence := py_str (default (PStr "") (d !! "evidence")) |})
          end
      | _, _ => Some None
      end
  | _ => Some None
  end.

Fixpoint clean_items (items : list pyval) : option (list assumption_entry) :=
  match items with
  | [] => Some []
  | item :: items' =>
      match clean_item item with
      | None => None
      | Some None => clean_items items'
      | Some (Some e) => option_map (cons e) (clean_items items')
      end
  end.

(** The body of the [try] block, after the call: the shape test, then the
    loop over [data["assumptions"][:10]]. *)
Definition assumptions_try (reply : option pyval) : option (list assumption_entry) :=
  match reply with
  | Some (PDict data) =>
      match data !! "assumptions" with
      | Some (PList l) => clean_items (take 10 l)
      | _ => None
      end
  | _ => None
  end.

Definition infer_uncertain_assumptions_with_llm
    (svc : llm_service) (conversation_text api_key model_name : string)
  : assumption_set * list event :=
  match assumptions_try (assumptions_reply svc api_key model_name conversation_text) with
  | Some cleaned =>
      ({| assumptions := cleaned |}, [CallAssumptions model_name conversation_text])
  | None =>
      ({| assumptions := [] |},
       [CallAssumptions model_name conversation_text; Warning assumptions_warning])
  end.

(** *** Sidebar widgets *)

(** The sidebar builds the nine widgets from the stored mental model:
    each slider with [float(mm[k])] as its value, the check box with
    [bool(mm["expects_correction"])], the select box with the index of
    [mm["assistant_role"]] among its options.  [shown_controls mm] is what
    the widgets show, and return, as long as the user does not touch
    them; [None] when building them raises ([float()] rejects a value,
    the slider rejects the number, or the role is not one of the
    options). *)
Definition slider_value (mm : dict) (k : string) : option float :=
  match mm !! k with
  | Some v =>
      match py_float v with
      | Some f => if slider_accepts f then Some f else None
      | None => None
      end
  | None => None
  end.

Definition role_index (mm : dict) : option nat :=
  match mm !! "assistant_role" with
  | Some (PStr r) => fst <$> list_find (fun o => o = r) role_options
  | _ => None
  end.

Definition shown_controls (mm : dict) : option controls :=
  uc ← slider_value mm "user_certainty";
  ex ← slider_value mm "model_seen_as_expert";
  co ← mm !! "expects_correction";
  va ← slider_value mm "validation_seeking";
  ob ← slider_value mm "objectivity_seeking";
  em ← slider_value mm "empathy_expectation";
  di ← slider_value mm "directness";
  inf ← slider_value mm "informativeness";
  ri ← role_index mm;
  ro ← role_options !! ri;
  Some {| user_certainty := uc;
          model_seen_as_expert := ex;
          expects_correction := py_bool co;
          validation_seeking := va;
          objectivity_seeking := ob;
          empathy_expectation := em;
          directness := di;
          informativeness := inf;
          assistant_role := ro |}.

(** *** Helpers *)

Definition history_line (m : message) : string :=
  (if String.eqb (role m) "user" then "User" else "Assistant")
    +:+ ": " +:+ content m.

Definition build_history_text (ms : list message) : string :=
  String.concat newline (history_line <$> ms).

(** A replacement field [{mm_vals[k]:.2f}]: [None] when the key is
    absent or the value is not a number that converts to [float]. *)
Definition field_2f (mm_vals : dict) (k : string) : option string :=
  match mm_vals !! k with
  | Some v => if is_number v then option_map format_2f (float_of_number v) else None
  | None => None
  end.

(** A replacement field [{mm_vals[k]}]. *)
Definition field_str (mm_vals : dict) (k : string) : option string :=
  option_map py_str (mm_vals !! k).

Definition build_mental_model_preamble (mm_vals : dict) : option string :=
  uc ← field_2f mm_vals "user_certainty";
  ex ← field_2f mm_vals "model_seen_as_expert";
  co ← field_str mm_vals "expects_correction";
  va ← field_2f mm_vals "validation_seeking";
  ob ← field_2f mm_vals "objectivity_seeking";
  em ← field_2f mm_vals "empathy_expectation";
  di ← field_2f mm_vals "directness";
  inf ← field_2f mm_vals "informativeness";
  ro ← field_str mm_vals "assistant_role";
  Some (String.concat newline
    [ "";
      "You are an assistant responding to a user. Before answering, read this";
      "description of the user's inferred conversational expectations and goals.";
      "Use it to shape your tone and structure, but do NOT restate it explicitly.";
      "";
      "[Epistemic stance]";
      "- User certainty (0–1): " +:+ uc;
      "- User treats assistant as expert (0–1): " +:+ ex;
      "- Expects explicit correction: " +:+ co;
      "";
      "[Relational goals]";
      "- Validation seeking (0–1): " +:+ va;
      "- Objectivity seeking (0–1): " +:+ ob;
      "- Empathy expectation (0–1): " +:+ em;
      "";
      "[Style]";
      "- Directness (0–1): " +:+ di;
      "- Informativeness (0–1): " +:+ inf;
      "";
      "[Role]";
      "- Assistant role: " +:+ ro;
      "" ]).

Definition combine_prompt (preamble convo_text : string) : string :=
  String.concat newline
    [ preamble;
      "";
      "Conversation so far:";
      convo_text;
      "";
      "Now respond as the assistant to the last user message in a way that respects the mental model above.";
      "Assistant:" ].

(** [log_turn]: appends one entry, reading the lock flag and the
    transcript from the session state. *)
Definition log_turn (s : session_state) (ti : Z) (timestamp : string)
    (mm_vals : dict) (mm_source : string) (assumptions_json : assumption_set)
    (user_message assistant_message combined_prompt : string) : session_state :=
  set_turn_logs
    (turn_logs s ++
      [ {| log_turn_index := ti;
           log_timestamp := timestamp;
           log_mm_locked := mm_locked s;
           log_mental_model := mm_vals;
           log_mental_model_source := mm_source;
           log_assumptions := assumptions_json;
           log_user_message := user_message;
           log_assistant_message := assistant_message;
           log_combined_prompt := combined_prompt;
           log_conversation_so_far := messages s |} ]) s.

(** *** Turn execution *)

(** Step 1 of a turn, "Mental model: infer if first turn or if unlocked,
    else use locked": the values used for the turn, their source tag,
    the session state after the step, and the events of the step. *)
Definition select_mental_model (s : session_state) (i : inputs) (u : string)
  : dict * string * session_state * list event :=
  let is_first_assistant_turn := turn_index s =? 0 in
  if is_first_assistant_turn then
    let '(mm_vals, evs) :=
      infer_mental_model_with_llm (service i) u (api_key i) (mm_model_name i) in
    (mm_vals, "inferred_first_turn", set_mm_values mm_vals s, evs)
  else if mm_locked s then
    (mm_values s, "user_locked", s, [])
  else
    let '(mm_vals, evs) :=
      infer_mental_model_with_llm (service i) u (api_key i) (mm_model_name i) in
    (mm_vals, "inferred_unlocked", set_mm_values mm_vals s, evs).

(** Step 2, "Assumptions: infer from conversation so far". *)
Definition record_assumptions (s : session_state) (i : inputs)
  : assumption_set * string * session_state * list event :=
  let convo_text := build_history_text (messages s) in
  let '(assumptions_json, evs) :=
    infer_uncertain_assumptions_with_llm
      (service i) convo_text (api_key i) (assumptions_model_name i) in
  (assumptions_json, convo_text,
   set_assumptions assumptions_json
     {| h_turn_index := turn_index s + 1;
        h_timestamp := now_history i;
        h_assumptions := assumptions_json |} s,
   evs).

(** The [else] branch of the API-key test for the submitted text [u], up
    to the end of step 2: the user message is appended and shown, the
    mental model selected, the assumptions inferred and stored. *)
Definition turn_inference (s : session_state) (i : inputs) (u : string)
  : dict * string * assumption_set * string * session_state * list event :=
  let s1 := set_messages (messages s ++ [ {| role := "user"; content := u |} ]) s in
  let '(mm_vals, mm_source, s2, ev2) := select_mental_model s1 i u in
  let '(assumptions_json, convo_text, s3, ev3) := record_assumptions s2 i in
  (mm_vals, mm_source, assumptions_json, convo_text, s3,
   [ChatMessage "user" u] ++ ev2 ++ ev3).

(** Steps 3 and 4 and the log: the prompt is built (the format
    specification [.2f] raises on a value that is not a number), the
    response model is called with no [try] around the call, and only
    then are the reply, the turn counter and the log entry stored. *)
Definition run_turn (s : session_state) (i : inputs) (u : string) : outcome :=
  let is_first_assistant_turn := turn_index s =? 0 in
  let '(mm_vals, mm_source, assumptions_json, convo_text, s3, evs) :=
    turn_inference s i u in
  match build_mental_model_preamble mm_vals with
  | None => raised s3 evs
  | Some preamble =>
      let combined_prompt := combine_prompt preamble convo_text in
      let ev4 := [CallResponse (response_model_name i) combined_prompt] in
      match response_reply (service i) (api_key i) (response_model_name i) combined_prompt with
      | None => raised s3 (evs ++ ev4)
      | Some assistant_reply =>
          let s4 :=
            set_turn_index (turn_index s3 + 1)
              (set_messages
                 (messages s3 ++ [ {| role := "assistant"; content := assistant_reply |} ])
                 s3) in
          let s5 :=
            log_turn s4 (turn_index s4) (now_log i) mm_vals mm_source assumptions_json
              u assistant_reply combined_prompt in
          finished s5
            (evs ++ ev4 ++
             (if is_first_assistant_turn then [Rerun]
              else [ChatMessage "assistant" assistant_reply]))
      end
  end.

Definition api_key_error : string := "Please add your OpenAI API key in the sidebar.".

(** "Chat input + turn execution": [if user_input: if not api_key: ...
    else: ...]; an empty string is falsy. *)
Definition turn_execution (s : session_state) (i : inputs) : outcome :=
  match user_input i with
  | None => finished s []
  | Some u =>
      if String.eqb u "" then finished s []
      else if String.eqb (api_key i) "" then finished s [Error api_key_error]
      else run_turn s i u
  end.

(** *** One run of the script *)

Definition show_messages (s : session_state) : list event :=
  (fun m => ChatMessage (role m) (content m)) <$> messages s.

Definition prepend (evs : list event) (o : outcome) : outcome :=
  {| out_state := out_state o; out_events := evs ++ out_events o;
     out_raised := out_raised o |}.

(** The script from top to bottom: the sidebar widgets, the lock check,
    the transcript, then the chat input. *)
Definition script_run (s : session_state) (i : inputs) : outcome :=
  match shown_controls (mm_values s) with
  | None => raised s []
  | Some _ =>
      match lock_check s (widgets i) with
      | None => raised s []
      | Some s1 => prepend (show_messages s1) (turn_execution s1 i)
      end
  end.

(** A session: the script runs once per interaction, each run starting
    from the state the previous one left.  The states after each run. *)
Fixpoint session (s : session_state) (runs : list inputs) : list session_state :=
  match runs with
  | [] => []
  | i :: runs' =>
      let s' := out_state (script_run s i) in
      s' :: session s' runs'
  end.

(** ** The specification's reading of the comparisons and filters *)

(** The stored mental model has the types of the data model: a number
    that converts to [float] in each of the seven continuous fields, a
    boolean in [expects_correction], a string in [assistant_role]. *)
Definition schema_typed (mm : dict) : bool :=
  forallb
    (fun k =>
       match mm !! k with
       | Some v => is_number v && bool_decide (is_Some (float_of_number v))
       | None => false
       end)
    probability_fields
  && match mm !! "expects_correction" with Some (PBool _) => true | _ => false end
  && match mm !! "assistant_role" with Some (PStr _) => true | _ => false end.

(** [b != old] for a boolean [b]: numbers compare by value, anything
    else differs from a boolean. *)
Definition bool_ne (b : bool) (old : pyval) : bool :=
  match old with
  | PBool b' => negb (Bool.eqb b b')
  | PInt z => negb (z =? (if b then 1 else 0))
  | PFloat f => negb (PrimFloat.eqb (PyFloat.of_bool b) f)
  | _ => true
  end.

(** [s != old] for a string [s]. *)
Definition str_ne (s : string) (old : pyval) : bool :=
  match old with
  | PStr t => negb (String.eqb s t)
  | _ => true
  end.

(** A control differs from the stored field as the specification words
    it: a continuous control by more than the tolerance (a stored value
    that is not a number is at no distance from it), the boolean and the
    role by exact inequality. *)
Definition spec_field_differs (v : control_value) (old : pyval) : bool :=
  match v with
  | CFloat f =>
      match float_of_number old with
      | Some fo => PyFloat.apart f fo
      | None => false
      end
  | CBool b => bool_ne b old
  | CStr s => str_ne s old
  end.

Definition controls_differ (c : controls) (mm : dict) : bool :=
  existsb
    (fun kv : string * control_value =>
       match mm !! kv.1 with
       | Some old => spec_field_differs kv.2 old
       | None => false
       end)
    (control_items c).

(** The replies on which the body of the mental-model [try] raises: a
    failed call or parse; [null], a boolean or a number ([k in mm] is a
    [TypeError]); a string or an array in which a field name occurs
    ([mm[k]] is a [TypeError]). *)
Definition mm_reply_raises (reply : option pyval) : bool :=
  match reply with
  | None => true
  | Some (PDict _) => false
  | Some (PStr s) => existsb (fun k => is_substring k s) mm_keys
  | Some (PList l) =>
      existsb
        (fun k => existsb (fun x => match x with PStr s => String.eqb s k | _ => false end) l)
        mm_keys
  | Some _ => true
  end.

(** An entry of the assumptions list that the loop does not skip: an
    object with an [assumption] key and a [probability] key. *)
Definition has_both_keys (item : pyval) : bool :=
  match item with
  | PDict d =>
      bool_decide (is_Some (d !! "assumption"))
      && bool_decide (is_Some (d !! "probability"))
  | _ => false
  end.

(** [float(item["probability"])] does not raise on a considered entry. *)
Definition probability_converts (item : pyval) : bool :=
  match item with
  | PDict d =>
      match d !! "assumption", d !! "probability" with
      | Some _, Some p => bool_decide (is_Some (py_float p))
      | _, _ => true
      end
  | _ => true
  end.

(** The cleaned entry [e] is the entry [item] of the reply, coerced. *)
Definition cleaned_from (item : pyval) (e : assumption_entry) : Prop :=
  exists d a p f,
    item = PDict d /\ d !! "assumption" = Some a /\ d !! "probability" = Some p
    /\ py_float p = Some f
    /\ e = {| assumption := py_str a;
              probability := clamp01 f;
              evidence := py_str (default (PStr "") (d !! "evidence")) |}.

(** The top level of a reply has the expected shape. *)
Definition assumptions_list (reply : option pyval) : option (list pyval) :=
  match reply with
  | Some (PDict data) =>
      match data !! "assumptions" with
      | Some (PList l) => Some l
      | _ => None
      end
  | _ => None
  end.

Definition is_mm_call (e : event) : bool :=
  match e with CallMentalModel _ _ => true | _ => false end.

Definition is_response_call (e : event) : bool :=
  match e with CallResponse _ _ => true | _ => false end.

Definition is_external_call (e : event) : bool :=
  match e with
  | CallMentalModel _ _ | CallAssumptions _ _ | CallResponse _ _ => true
  | _ => false
  end.

(** ** Auxiliary definitions for the statements *)

(** What the typing of the stored model gives for one pair of the loop. *)
Definition field_typed (v : control_value) (old : pyval) : Prop :=
  match v with
  | CFloat _ => is_number old = true /\ is_Some (float_of_number old)
  | CBool _ => exists b, old = PBool b
  | CStr _ => True
  end.

(** The mental model a turn uses, and where it comes from. *)
Definition infers (s : session_state) : bool :=
  (turn_index s =? 0) || negb (mm_locked s).

Definition source_tag (s : session_state) : string :=
  if turn_index s =? 0 then "inferred_first_turn"
  else if mm_locked s then "user_locked" else "inferred_unlocked".

Definition user_message (u : string) : message := {| role := "user"; content := u |}.

(** The state after steps 1 and 2 of a turn. *)
Definition after_inference (s : session_state) (i : inputs) (u : string)
  : session_state :=
  let r := infer_mental_model_with_llm (service i) u (api_key i) (mm_model_name i) in
  let ms := messages s ++ [user_message u] in
  let a :=
    (infer_uncertain_assumptions_with_llm (service i)
       (build_history_text ms) (api_key i) (assumptions_model_name i)).1 in
  {| messages := ms;
     mm_values := if infers s then r.1 else mm_values s;
     turn_index := turn_index s;
     turn_logs := turn_logs s;
     mm_locked := mm_locked s;
     assumptions_latest := Some a;
     assumptions_history :=
       assumptions_history s ++
       [ {| h_turn_index := turn_index s + 1;
            h_timestamp := now_history i;
            h_assumptions := a |} ] |}.


(** The mental-model values a turn uses. *)
Definition turn_mm_vals (s : session_state) (i : inputs) (u : string) : dict :=
  if infers s
  then (infer_mental_model_with_llm (service i) u (api_key i) (mm_model_name i)).1
  else mm_values s.

(** The assumptions a turn infers, from the transcript that ends with
    the submitted message. *)
Definition turn_assumptions (s : session_state) (i : inputs) (u : string)
  : assumption_set * list event :=
  infer_uncertain_assumptions_with_llm (service i)
    (build_history_text (messages s ++ [user_message u]))
    (api_key i) (assumptions_model_name i).

(** What steps 1 and 2 show and send. *)
Definition inference_events (s : session_state) (i : inputs) (u : string)
  : list event :=
  [ChatMessage "user" u]
  ++ (if infers s
      then (infer_mental_model_with_llm (service i) u (api_key i) (mm_model_name i)).2
      else [])
  ++ (turn_assumptions s i u).2.

(** The prompt of step 3; [None] when building the preamble raises. *)
Definition turn_prompt (s : session_state) (i : inputs) (u : string)
  : option string :=
  option_map
    (fun preamble =>
       combine_prompt preamble (build_history_text (messages s ++ [user_message u])))
    (build_mental_model_preamble (turn_mm_vals s i u)).

(** The log entry of a completed turn. *)
Definition turn_log_entry (s : session_state) (i : inputs) (u p reply : string)
  : turn_log :=
  {| log_turn_index := turn_index s + 1;
     log_timestamp := now_log i;
     log_mm_locked := mm_locked s;
     log_mental_model := turn_mm_vals s i u;
     log_mental_model_source := source_tag s;
     log_assumptions := (turn_assumptions s i u).1;
     log_user_message := u;
     log_assistant_message := reply;
     log_combined_prompt := p;
     log_conversation_so_far :=
       messages s ++ [user_message u; {| role := "assistant"; content := reply |}] |}.

(** The state a completed turn leaves. *)
Definition after_response (s : session_state) (i : inputs) (u p reply : string)
  : session_state :=
  let s3 := after_inference s i u in
  {| messages :=
       messages s ++ [user_message u; {| role := "assistant"; content := reply |}];
     mm_values := mm_values s3;
     turn_index := turn_index s + 1;
     turn_logs := turn_logs s ++ [turn_log_entry s i u p reply];
     mm_locked := mm_locked s;
     assumptions_latest := assumptions_latest s3;
     assumptions_history := assumptions_history s3 |}.

(** ** Concrete replies and states used in the examples *)

(** A service that gives the same three replies whatever the request. *)
Definition fixed_service (mm_reply assumptions_json : option pyval)
    (response : option string) : llm_service :=
  {| mental_model_reply := fun _ _ _ => mm_reply;
     assumptions_reply := fun _ _ _ => assumptions_json;
     response_reply := fun _ _ _ => response |}.

(** [{"user_certainty": 1.5}] *)
Definition reply_out_of_range : pyval :=
  PDict {[ "user_certainty" := PFloat 1.5 ]}.

(** [{"expects_correction": null}] *)
Definition reply_null_boolean : pyval :=
  PDict {[ "expects_correction" := PNone ]}.

(** [[]], a JSON array *)
Definition reply_array : pyval := PList [].

(** Finite tables standing for the three built-ins in the examples.  They
    agree with Python on every value the examples reach. *)
Definition sample_float_of_str (s : string) : option float :=
  if String.eqb s "0.7" then Some 0.7%float else None.

Definition sample_repr (v : pyval) : string :=
  match v with
  | PNone => "None"
  | PBool true => "True"
  | PBool false => "False"
  | _ => "..."
  end.

Definition sample_format_2f (f : float) : string :=
  if PrimFloat.eqb f 0.5 then "0.50"
  else if PrimFloat.eqb f 0.8 then "0.80"
  else if PrimFloat.eqb f 0.7 then "0.70"
  else if PrimFloat.eqb f 1.5 then "1.50"
  else "...".

(** The slider in the examples: it raises on the two infinities and
    shows every other value the examples reach. *)
Definition sample_slider_accepts (f : float) : bool :=
  negb (PrimFloat.eqb (PrimFloat.abs f) PrimFloat.infinity).

(** The controls as the widgets show the default mental model. *)
Definition default_controls : controls :=
  {| user_certainty := 0.5; model_seen_as_expert := 0.8;
     expects_correction := true; validation_seeking := 0.5;
     objectivity_seeking := 0.5; empathy_expectation := 0.5;
     directness := 0.5; informativeness := 0.7;
     assistant_role := "Neutral assistant" |}.

(** The same controls after [directness] is moved from 0.5 to 0.6. *)
Definition moved_controls : controls :=
  {| user_certainty := 0.5; model_seen_as_expert := 0.8;
     expects_correction := true; validation_seeking := 0.5;
     objectivity_seeking := 0.5; empathy_expectation := 0.5;
     directness := 0.6; informativeness := 0.7;
     assistant_role := "Neutral assistant" |}.

(** A session after one completed turn, unlocked, holding [mm]. *)
Definition after_first_turn (mm : dict) : session_state :=
  {| messages := [ {| role := "user"; content := "hello" |};
                   {| role := "assistant"; content := "hi" |} ];
     mm_values := mm;
     turn_index := 1;
     turn_logs := [];
     mm_locked := false;
     assumptions_latest := None;
     assumptions_history := [] |}.

(** The default model with [expects_correction] stored as the number
    0.9999995, as the reply [{"expects_correction": 0.9999995}] leaves it. *)
Definition mm_near_boolean : dict :=
  <[ "expects_correction" := PFloat 0.9999995 ]> DEFAULT_MM.

Definition entry (a : string) (p : pyval) : pyval :=
  PDict (<[ "assumption" := PStr a ]> {[ "probability" := p ]}).

Definition assumptions_object (l : list pyval) : pyval :=
  PDict {[ "assumptions" := PList l ]}.

(** [{"assumptions": [{"assumption": "a"}]}] *)
Definition reply_incomplete_entry : pyval :=
  assumptions_object [ PDict {[ "assumption" := PStr "a" ]} ].

(** [{"assumptions": [{"assumption": "a", "probability": 0.5},
                      {"assumption": "b", "probability": null}]}] *)
Definition reply_null_probability : pyval :=
  assumptions_object [ entry "a" (PFloat 0.5); entry "b" PNone ].

(** Five entries: one out of range above, one without a probability, one
    that is not an object, one out of range below, one whose probability
    is the string ["0.7"]. *)
Definition reply_mixed : pyval :=
  assumptions_object
    [ entry "a" (PFloat 1.5);
      PDict {[ "assumption" := PStr "b" ]};
      PStr "junk";
      entry "c" (PFloat (-0.3));
      entry "d" (PStr "0.7") ].

(** Eleven complete entries, none with an [evidence] key. *)
Definition reply_eleven : pyval :=
  assumptions_object
    ((fun a => entry a (PFloat 0.5)) <$>
       [ "a1"; "a2"; "a3"; "a4"; "a5"; "a6"; "a7"; "a8"; "a9"; "a10"; "a11" ]).

(** A script run in which ["hello"] is submitted. *)
Definition submit_hello (key : string) (svc : llm_service) : inputs :=
  {| widgets := default_controls;
     api_key := key;
     mm_model_name := "gpt-5.1-mini";
     assumptions_model_name := "gpt-5.1-mini";
     response_model_name := "gpt-5.1";
     user_input := Some "hello";
     service := svc;
     now_history := "2026-01-01T00:00:00Z";
     now_log := "2026-01-01T00:00:01Z" |}.

(** A script run with no message submitted, the widgets returning [c]. *)
Definition rerun (c : controls) : inputs :=
  {| widgets := c;
     api_key := "key";
     mm_model_name := "gpt-5.1-mini";
     assumptions_model_name := "gpt-5.1-mini";
     response_model_name := "gpt-5.1";
     user_input := None;
     service := fixed_service None None None;
     now_history := "2026-01-01T00:01:00Z";
     now_log := "2026-01-01T00:01:01Z" |}.

(** The controls as the widgets show the default mental model once
    [expects_correction] is stored as [None]: the check box is unchecked. *)
Definition unchecked_controls : controls :=
  {| user_certainty := 0.5; model_seen_as_expert := 0.8;
     expects_correction := false; validation_seeking := 0.5;
     objectivity_seeking := 0.5; empathy_expectation := 0.5;
     directness := 0.5; informativeness := 0.7;
     assistant_role := "Neutral assistant" |}.

(** ** Bookkeeping of a session *)

(** The number of assistant messages in a transcript. *)
Definition assistant_count (ms : list message) : nat :=
  length (filter (fun m => role m = "assistant") ms).

(** [build_mental_model_preamble] can format the model: a number that
    converts to [float] under each of the seven keys formatted with
    [.2f], and the two other keys present. *)
Definition preamble_ready (mm : dict) : bool :=
  forallb
    (fun k =>
       match mm !! k with
       | Some v => is_number v && bool_decide (is_Some (float_of_number v))
       | None => false
       end)
    probability_fields
  && bool_decide (is_Some (mm !! "expects_correction"))
  && bool_decide (is_Some (mm !! "assistant_role")).

Definition assistant_message (reply : string) : message :=
  {| role := "assistant"; content := reply |}.

(** What every state of a session that starts in [initial_state]
    satisfies; each script run keeps it. *)
Record session_inv (s : session_state) : Prop := {
  inv_index : turn_index s = Z.of_nat (length (turn_logs s));
  inv_numbering :
    forall (k : nat) e, turn_logs s !! k = Some e -> log_turn_index e = Z.of_nat (S k);
  inv_assistants : Z.of_nat (assistant_count (messages s)) = turn_index s;
  inv_latest :
    assumptions_latest s = h_assumptions <$> last (assumptions_history s);
  inv_history :
    forall e, e ∈ turn_logs s ->
      exists h, h ∈ assumptions_history s
                /\ h_turn_index h = log_turn_index e
                /\ h_assumptions h = log_assumptions e;
  inv_history_index :
    forall h, h ∈ assumptions_history s -> 1 <= h_turn_index h <= turn_index s + 1;
  inv_keys : forall k, is_Some (mm_values s !! k) <-> k ∈ mm_keys;
  inv_locked : mm_locked s = true -> turn_index s <> 0;
  inv_transcript :
    forall e, e ∈ turn_logs s ->
      (exists ms, log_conversation_so_far e
                  = ms ++ [user_message (log_user_message e);
                           assistant_message (log_assistant_message e)])
      /\ log_conversation_so_far e `prefix_of` messages s;
  inv_tags :
    forall e, e ∈ turn_logs s ->
      (log_mental_model_source e = "user_locked" <-> log_mm_locked e = true)
      /\ (log_mental_model_source e = "inferred_first_turn" <-> log_turn_index e = 1)
      /\ (log_mental_model_source e = "inferred_unlocked"
          <-> log_mm_locked e = false /\ log_turn_index e <> 1);
  inv_log_model :
    forall e, e ∈ turn_logs s ->
      preamble_ready (log_mental_model e) = true
      /\ (log_mm_locked e = true ->
          mm_locked s = true /\ log_mental_model e = mm_values s);
}.

(** ** A session and documents used in the examples *)

(** The default controls after [directness] is moved from 0.5 to 0.8. *)
Definition blunt_controls : controls :=
  {| user_certainty := 0.5; model_seen_as_expert := 0.8;
     expects_correction := true; validation_seeking := 0.5;
     objectivity_seeking := 0.5; empathy_expectation := 0.5;
     directness := 0.8; informativeness := 0.7;
     assistant_role := "Neutral assistant" |}.

(** A service that answers the mental-model request with [mm_reply], the
    assumptions request with one assumption and any prompt with ["hi"]. *)
Definition chat_service (mm_reply : pyval) : llm_service :=
  fixed_service (Some mm_reply)
    (Some (assumptions_object [ entry "a" (PFloat 0.5) ])) (Some "hi").

(** A script run in which [u] is submitted while the widgets return [c]. *)
Definition submit (c : controls) (u : string) (svc : llm_service) : inputs :=
  {| widgets := c;
     api_key := "key";
     mm_model_name := "gpt-5.1-mini";
     assumptions_model_name := "gpt-5.1-mini";
     response_model_name := "gpt-5.1";
     user_input := Some u;
     service := svc;
     now_history := "2026-01-01T00:00:00Z";
     now_log := "2026-01-01T00:00:01Z" |}.

(** A first turn, then [directness] is moved, then a second turn. *)
Definition three_runs : list inputs :=
  [ submit default_controls "hello" (chat_service (PDict ∅));
    rerun blunt_controls;
    submit blunt_controls "more" (chat_service (PDict ∅)) ].

(** The state the three runs leave. *)
Definition after_three_runs : session_state :=
  default initial_state (last (session initial_state three_runs)).

(** [{"directness": "high"}] *)
Definition reply_directness_string : pyval :=
  PDict {[ "directness" := PStr "high" ]}.

(** [{"assistant_role": "Coach"}] *)
Definition reply_role_coach : pyval :=
  PDict {[ "assistant_role" := PStr "Coach" ]}.

(** The state after a first turn in which the service gave the role
    ["Coach"]. *)
Definition after_coach_turn : session_state :=
  out_state
    (script_run initial_state (submit default_controls "hello" (chat_service reply_role_coach))).

(** [{"score": v}] *)
Definition scored (v : pyval) : pyval := PDict {[ "score" := v ]}.

(** A turn with the three scores at their path and the turn index [ti]. *)
Definition scored_turn (ti : Z) (inf val emo : pyval) : dict :=
  <[ "turnIndex" := PInt ti ]>
    {[ "mentalModel" :=
         PDict {[ "mental_model" :=
           PDict {[ "support_seeking" :=
             PDict (<[ "informational" := scored inf ]>
                    (<[ "validation_esteem" := scored val ]>
                     {[ "emotional" := scored emo ]})) ]} ]} ]}.

(** [{"turnIndex": 2, "mentalModel": {"mental_model": null}}] *)
Definition null_model_turn : dict :=
  <[ "turnIndex" := PInt 2 ]>
    {[ "mentalModel" := PDict {[ "mental_model" := PNone ]} ]}.

(** [{"prompt_id": "p1", "turns": [...]}] *)
Definition conversation (turns : list pyval) : dict :=
  <[ "prompt_id" := PStr "p1" ]> {[ "turns" := PList turns ]}.


(** The default model with [directness] stored as [Infinity], as an
    unlocked turn leaves it when the service replies
    [{"directness": Infinity}]. *)
Definition mm_infinite_directness : dict :=
  <[ "directness" := PFloat PrimFloat.infinity ]> DEFAULT_MM.


(** * Properties *)

(** ** Comparisons of binary64 numbers *)









(** ** The clamp [max(0.0, min(1.0, prob))] *)

Lemma clamp01_cases p :
  clamp01 p = (if PrimFloat.ltb p 1
               then (if PrimFloat.ltb 0 p then p else 0%float)
               else 1%float).
Proof.
  unfold clamp01, PyFloat.py_min, PyFloat.py_max.
  destruct (PrimFloat.ltb p 1); [reflexivity|].
  replace (PrimFloat.ltb 0 1) with true by (vm_compute; reflexivity).
  reflexivity.
Qed.





(** The tolerance test on two booleans is exact inequality. *)
Lemma apart_of_bool b b' :
  PyFloat.apart (PyFloat.of_bool b) (PyFloat.of_bool b') = negb (Bool.eqb b b').
Proof. destruct b, b'; vm_compute; reflexivity. Qed.

(** A number is never apart from itself: the difference is a zero or a
    NaN. *)
Lemma apart_diag f : PyFloat.apart f f = false.
Proof.
  unfold PyFloat.apart.
  rewrite FloatAxioms.ltb_spec, FloatAxioms.abs_spec, FloatAxioms.sub_spec.
  replace (Prim2SF 1e-6) with (S754_finite false 4722366482869645 (-72))
    by (vm_compute; reflexivity).
  unfold SF64sub, SFsub.
  destruct (Prim2SF f) as [s|s| |s m e].
  - destruct s; reflexivity.
  - destruct s; reflexivity.
  - reflexivity.
  - rewrite Z.sub_diag. reflexivity.
Qed.

(** ** The Mental-Model Inferencer *)

(** On an object the loop never raises, and it is the fold that
    overwrites the keys the object has. *)
Lemma overwrite_present_dict keys d cleaned :
  overwrite_present keys (PDict d) cleaned =
  Some (foldl (fun c k => match d !! k with Some v => <[k := v]> c | None => c end)
              cleaned keys).
Proof.
  revert cleaned. induction keys as [|k keys IH]; intros cleaned; simpl; [reflexivity|].
  destruct (d !! k) as [v|] eqn:E.
  - rewrite bool_decide_eq_true_2 by eauto. apply IH.
  - rewrite bool_decide_eq_false_2 by (intros [? ?]; discriminate). apply IH.
Qed.

Lemma overwrite_fold_lookup (d cleaned : dict) keys k :
  foldl (fun c k => match d !! k with Some v => <[k := v]> c | None => c end)
        cleaned keys !! k =
  if bool_decide (k ∈ keys)
  then match d !! k with Some v => Some v | None => cleaned !! k end
  else cleaned !! k.
Proof.
  revert cleaned. induction keys as [|k' keys IH]; intros cleaned; cbn [foldl].
  - rewrite bool_decide_eq_false_2; [reflexivity|]. apply not_elem_of_nil.
  - rewrite IH. destruct (decide (k = k')) as [->|Hne].
    + rewrite (bool_decide_eq_true_2 (k' ∈ k' :: keys)) by left.
      destruct (d !! k') as [v|] eqn:E.
      * rewrite lookup_insert_eq. destruct (bool_decide _); reflexivity.
      * destruct (bool_decide _); reflexivity.
    + assert (Hk : bool_decide (k ∈ k' :: keys) = bool_decide (k ∈ keys)).
      { apply bool_decide_ext. rewrite elem_of_cons.
        split; [intros [?|?]; [contradiction|assumption]|auto]. }
      rewrite Hk.
      destruct (d !! k') as [v|]; [rewrite lookup_insert_ne by congruence|]; reflexivity.
Qed.

(** X3.  Each field of the result is the reply's value when the reply has
    the key, whatever that value is, and the default otherwise; the result
    has the keys of the default and no other. *)
Lemma infer_mental_model_field svc text key model d k :
  mental_model_reply svc key model text = Some (PDict d) ->
  (infer_mental_model_with_llm svc text key model).1 !! k =
  match DEFAULT_MM !! k with
  | Some dv => Some (default dv (d !! k))
  | None => None
  end.
Proof.
  intros Hr. unfold infer_mental_model_with_llm, mm_try. rewrite Hr.
  rewrite overwrite_present_dict. cbn [fst]. rewrite overwrite_fold_lookup.
  destruct (decide (k ∈ mm_keys)) as [Hin|Hnin].
  - rewrite bool_decide_eq_true_2 by assumption.
    assert (Hdef : is_Some (DEFAULT_MM !! k)).
    { destruct (DEFAULT_MM !! k) eqn:E; [eauto|].
      apply not_elem_of_list_to_map_2 in E. contradiction. }
    destruct Hdef as [dv ->]. destruct (d !! k); reflexivity.
  - rewrite bool_decide_eq_false_2 by assumption.
    assert (Hdef : DEFAULT_MM !! k = None).
    { unfold DEFAULT_MM. apply not_elem_of_list_to_map_1. exact Hnin. }
    rewrite Hdef. reflexivity.
Qed.

(** On a reply that is not an object the loop raises or changes nothing. *)
Lemma overwrite_present_other keys mm cleaned :
  (forall d, mm <> PDict d) ->
  overwrite_present keys mm cleaned =
  if existsb (fun k => match py_contains k mm with Some b => b | None => true end) keys
  then None else Some cleaned.
Proof.
  intros Hnd. induction keys as [|k keys IH]; simpl; [reflexivity|].
  destruct (py_contains k mm) as [[|]|] eqn:E; simpl; try reflexivity; [|exact IH].
  destruct mm; simpl in *; try reflexivity. exfalso. eapply Hnd. reflexivity.
Qed.

Lemma mm_try_other reply :
  (forall d, reply <> Some (PDict d)) ->
  mm_try reply = if mm_reply_raises reply then None else Some DEFAULT_MM.
Proof.
  intros Hnd. destruct reply as [mm|]; [|reflexivity]. cbn [mm_try].
  rewrite overwrite_present_other by (intros d ->; eapply Hnd; reflexivity).
  destruct mm; try reflexivity. exfalso. eapply Hnd. reflexivity.
Qed.

Lemma default_mm_in_range :
  Forall (fun k => field_in_unit DEFAULT_MM k = true) probability_fields
  /\ DEFAULT_MM !! "expects_correction" = Some (PBool true)
  /\ DEFAULT_MM !! "assistant_role" = Some (PStr "Neutral assistant")
  /\ "Neutral assistant" ∈ role_options.
Proof.
  split; [repeat constructor; vm_compute; reflexivity|].
  split; [vm_compute; reflexivity|].
  split; [vm_compute; reflexivity|]. left.
Qed.

(** C1.  The specification asks that all seven probability fields of the
    value the Mental-Model Inferencer returns lie in [[0,1]], whatever
    numbers the service supplies.  The inferencer copies the reply's
    values unchanged: on the reply [{"user_certainty": 1.5}] it returns
    [user_certainty = 1.5], with no warning, and that field is outside
    [[0,1]]. *)
Theorem mental_model_copies_out_of_range :
  let out :=
    infer_mental_model_with_llm
      (fixed_service (Some reply_out_of_range) None None)
      "Tell me if I am wrong" "key" "gpt-5.1-mini" in
  out.1 !! "user_certainty" = Some (PFloat 1.5)
  /\ field_in_unit out.1 "user_certainty" = false
  /\ out.2 = [CallMentalModel "gpt-5.1-mini" "Tell me if I am wrong"].
Proof. vm_compute. repeat split; reflexivity. Qed.

(** X4.  Whenever the processing of the reply raises, the error is
    caught, the warning surfaced, and the documented default mental model
    returned.  When the reply of the service is not valid JSON (or the
    call fails) or is not an object, the Mental-Model Inferencer returns
    the default mental model, in which every field lies in its declared
    range; the processing raises, and the warning is surfaced, exactly
    for a failed call or parse, for [null], a boolean or a number, and
    for a string or an array in which a field name occurs. *)
Theorem mental_model_fallback svc text key model :
  let reply := mental_model_reply svc key model text in
  let out := infer_mental_model_with_llm svc text key model in
  (mm_try reply = None ->
     out = (DEFAULT_MM, [CallMentalModel model text; Warning mm_warning]))
  /\ ((forall d, reply <> Some (PDict d)) ->
      out.1 = DEFAULT_MM
      /\ (mm_reply_raises reply = true ->
          out.2 = [CallMentalModel model text; Warning mm_warning])
      /\ (mm_reply_raises reply = false -> out.2 = [CallMentalModel model text]))
  /\ Forall (fun k => field_in_unit DEFAULT_MM k = true) probability_fields
  /\ DEFAULT_MM !! "expects_correction" = Some (PBool true)
  /\ DEFAULT_MM !! "assistant_role" = Some (PStr "Neutral assistant")
  /\ "Neutral assistant" ∈ role_options.
Proof.
  intros reply out. subst out. unfold infer_mental_model_with_llm. fold reply.
  split; [intros ->; reflexivity|].
  split; [|exact default_mm_in_range].
  intros Hnd. rewrite (mm_try_other reply Hnd).
  destruct (mm_reply_raises reply); cbn [fst snd];
    (split; [reflexivity|]); split; intros; congruence.
Qed.

(** ** The lock check *)

Lemma field_changed_typed v old :
  field_typed v old -> field_changed v old = Some (spec_field_differs v old).
Proof.
  destruct v as [f|b|r]; cbn [field_typed field_changed spec_field_differs].
  - intros [-> [fo ->]]. reflexivity.
  - intros [b' ->]. cbn [is_number float_of_number option_map bool_ne].
    rewrite apart_of_bool. reflexivity.
  - intros _. destruct old; reflexivity.
Qed.

Lemma changed_typed items mm :
  Forall (fun kv : string * control_value =>
            exists old, mm !! kv.1 = Some old /\ field_typed kv.2 old) items ->
  changed items mm =
  Some (existsb
          (fun kv : string * control_value =>
             match mm !! kv.1 with
             | Some old => spec_field_differs kv.2 old
             | None => false
             end) items).
Proof.
  induction 1 as [|[k v] items (old & Hk & Ht) _ IH]; [reflexivity|].
  cbn [changed existsb fst snd] in *. rewrite Hk, (field_changed_typed _ _ Ht).
  destruct (spec_field_differs v old); [reflexivity|exact IH].
Qed.

Lemma schema_typed_items c mm :
  schema_typed mm = true ->
  Forall (fun kv : string * control_value =>
            exists old, mm !! kv.1 = Some old /\ field_typed kv.2 old)
         (control_items c).
Proof.
  unfold schema_typed, probability_fields. cbn [forallb].
  rewrite !andb_true_iff.
  intros [[(H1 & H2 & H3 & H4 & H5 & H6 & H7 & _) Hb] Hr].
  assert (Hnum : forall k,
    match mm !! k with
    | Some v => is_number v && bool_decide (is_Some (float_of_number v))
    | None => false
    end = true ->
    forall f, exists old, mm !! k = Some old /\ field_typed (CFloat f) old).
  { intros k Hk f. destruct (mm !! k) as [v|]; [|discriminate].
    apply andb_prop in Hk as [Hn Hf]. apply bool_decide_eq_true_1 in Hf.
    exists v. repeat split; assumption. }
  unfold control_items. repeat apply Forall_cons_2; cbn [fst snd];
    try (apply Hnum; assumption); try apply Forall_nil_2.
  - destruct (mm !! "expects_correction") as [[]|]; try discriminate.
    eexists. split; [reflexivity|]. cbn. eauto.
  - destruct (mm !! "assistant_role") as [[]|]; try discriminate.
    eexists. split; [reflexivity|]. exact I.
Qed.

Lemma changed_schema_typed c mm :
  schema_typed mm = true ->
  changed (control_items c) mm = Some (controls_differ c mm).
Proof. intros H. apply changed_typed, schema_typed_items, H. Qed.

Lemma py_float_number v : is_number v = true -> py_float v = float_of_number v.
Proof. destruct v; try discriminate; reflexivity. Qed.

Lemma slider_value_typed mm k f :
  match mm !! k with
  | Some v => is_number v && bool_decide (is_Some (float_of_number v))
  | None => false
  end = true ->
  slider_value mm k = Some f ->
  exists v, mm !! k = Some v /\ float_of_number v = Some f.
Proof.
  unfold slider_value. destruct (mm !! k) as [v|]; [|discriminate].
  intros [Hn _]%andb_prop. rewrite (py_float_number v Hn).
  destruct (float_of_number v) as [g|] eqn:E; [|discriminate].
  destruct (slider_accepts g); [|discriminate].
  intros [= <-]. exists v. split; [reflexivity|exact E].
Qed.

Lemma role_index_option r (n : nat) :
  fst <$> list_find (fun o => o = r) role_options = Some n ->
  role_options !! n = Some r.
Proof.
  destruct (list_find _ _) as [[m o]|] eqn:E; [|discriminate].
  intros [= <-]. apply list_find_Some in E as (Hm & -> & _). exact Hm.
Qed.

(** X2.  While the user leaves the widgets alone, a snapshot typed as the
    data model says never locks: the controls show the stored values. *)
Lemma shown_controls_unchanged mm c :
  schema_typed mm = true -> shown_controls mm = Some c ->
  changed (control_items c) mm = Some false.
Proof.
  intros Hty Hs. rewrite (changed_schema_typed c mm Hty). f_equal.
  revert Hty Hs. unfold schema_typed, probability_fields. cbn [forallb].
  rewrite !andb_true_iff.
  intros [[(H1 & H2 & H3 & H4 & H5 & H6 & H7 & _) Hb] Hr].
  destruct (mm !! "expects_correction") as [[| b | | | | |]|] eqn:Lb; try discriminate.
  destruct (mm !! "assistant_role") as [[| | | | r | |]|] eqn:Lr; try discriminate.
  unfold shown_controls, role_index. rewrite Lb, Lr.
  destruct (slider_value mm "user_certainty") as [f1|] eqn:S1; [|discriminate].
  destruct (slider_value mm "model_seen_as_expert") as [f2|] eqn:S2; [|discriminate].
  cbn [mbind option_bind].
  destruct (slider_value mm "validation_seeking") as [f3|] eqn:S3; [|discriminate].
  destruct (slider_value mm "objectivity_seeking") as [f4|] eqn:S4; [|discriminate].
  destruct (slider_value mm "empathy_expectation") as [f5|] eqn:S5; [|discriminate].
  destruct (slider_value mm "directness") as [f6|] eqn:S6; [|discriminate].
  destruct (slider_value mm "informativeness") as [f7|] eqn:S7; [|discriminate].
  cbn [mbind option_bind].
  destruct (slider_value_typed _ _ _ H1 S1) as (v1 & L1 & F1).
  destruct (slider_value_typed _ _ _ H2 S2) as (v2 & L2 & F2).
  destruct (slider_value_typed _ _ _ H3 S3) as (v3 & L3 & F3).
  destruct (slider_value_typed _ _ _ H4 S4) as (v4 & L4 & F4).
  destruct (slider_value_typed _ _ _ H5 S5) as (v5 & L5 & F5).
  destruct (slider_value_typed _ _ _ H6 S6) as (v6 & L6 & F6).
  destruct (slider_value_typed _ _ _ H7 S7) as (v7 & L7 & F7).
  destruct (fst <$> list_find (fun o => o = r) role_options) as [n|] eqn:En;
    [|discriminate].
  cbn [mbind option_bind]. rewrite (role_index_option r n En). cbn [mbind option_bind].
  intros [= <-]. unfold controls_differ, control_items.
  cbn [existsb fst snd user_certainty model_seen_as_expert expects_correction
       validation_seeking objectivity_seeking empathy_expectation directness
       informativeness assistant_role].
  rewrite L1, L2, L3, L4, L5, L6, L7, Lb, Lr.
  cbn [spec_field_differs]. rewrite F1, F2, F3, F4, F5, F6, F7, !apart_diag.
  cbn [py_bool bool_ne str_ne orb]. rewrite String.eqb_refl.
  destruct b; reflexivity.
Qed.

Lemma lock_check_skipped s c :
  turn_index s = 0 \/ mm_locked s = true -> lock_check s c = Some s.
Proof.
  unfold lock_check. intros [->| ->]; [reflexivity|].
  rewrite andb_false_r. reflexivity.
Qed.

Lemma lock_check_flag s c s' :
  lock_check s c = Some s' ->
  (mm_locked s = true -> mm_locked s' = true)
  /\ (mm_locked s = false -> mm_locked s' = true ->
      turn_index s <> 0 /\ changed (control_items c) (mm_values s) = Some true)
  /\ turn_index s' = turn_index s.
Proof.
  unfold lock_check. destruct (turn_index s =? 0) eqn:Et; cbn [negb andb].
  - intros [= <-]. repeat split; auto; congruence.
  - apply Z.eqb_neq in Et. destruct (mm_locked s) eqn:El; cbn [negb].
    + intros [= <-]. repeat split; auto; congruence.
    + destruct (changed _ _) as [[|]|]; intros [= <-]; repeat split; auto; congruence.
Qed.

(** ** Turn execution, step by step *)

Lemma select_mental_model_eq s i u :
  select_mental_model s i u =
  let r := infer_mental_model_with_llm (service i) u (api_key i) (mm_model_name i) in
  (if infers s then r.1 else mm_values s,
   source_tag s,
   if infers s then set_mm_values r.1 s else s,
   if infers s then r.2 else []).
Proof.
  unfold select_mental_model, infers, source_tag.
  destruct (infer_mental_model_with_llm _ _ _ _) as [mm evs].
  destruct (turn_index s =? 0); [reflexivity|].
  destruct (mm_locked s); reflexivity.
Qed.

Lemma turn_inference_eq s i u :
  turn_inference s i u =
  let r := infer_mental_model_with_llm (service i) u (api_key i) (mm_model_name i) in
  let convo := build_history_text (messages s ++ [user_message u]) in
  let a :=
    infer_uncertain_assumptions_with_llm (service i)
      convo (api_key i) (assumptions_model_name i) in
  (if infers s then r.1 else mm_values s, source_tag s, a.1, convo,
   after_inference s i u,
   [ChatMessage "user" u] ++ (if infers s then r.2 else []) ++ a.2).
Proof.
  unfold turn_inference. rewrite select_mental_model_eq.
  unfold record_assumptions, after_inference, user_message, infers, source_tag.
  cbn [set_messages turn_index mm_locked mm_values messages].
  destruct ((turn_index s =? 0) || negb (mm_locked s));
    cbn [set_mm_values set_messages set_assumptions turn_index mm_locked mm_values
         messages turn_logs assumptions_latest assumptions_history fst snd];
    destruct (infer_uncertain_assumptions_with_llm _ _ _ _) as [a evs];
    reflexivity.
Qed.

Lemma run_turn_eq s i u :
  run_turn s i u =
  match turn_prompt s i u with
  | None => raised (after_inference s i u) (inference_events s i u)
  | Some p =>
      let call := [CallResponse (response_model_name i) p] in
      match response_reply (service i) (api_key i) (response_model_name i) p with
      | None => raised (after_inference s i u) (inference_events s i u ++ call)
      | Some reply =>
          finished (after_response s i u p reply)
            (inference_events s i u ++ call ++
             (if turn_index s =? 0 then [Rerun] else [ChatMessage "assistant" reply]))
      end
  end.
Proof.
  unfold run_turn. rewrite turn_inference_eq. cbv zeta.
  unfold turn_prompt. fold (turn_mm_vals s i u).
  destruct (build_mental_model_preamble (turn_mm_vals s i u)) as [pre|];
    cbn [option_map]; [|reflexivity].
  destruct (response_reply _ _ _ _) as [reply|]; [|reflexivity].
  unfold finished, after_response, log_turn, turn_log_entry, set_turn_logs,
    set_turn_index, set_messages, inference_events, turn_assumptions,
    turn_mm_vals.
  cbn [messages mm_values turn_index turn_logs mm_locked assumptions_latest
       assumptions_history after_inference].
  rewrite <- !app_assoc. reflexivity.
Qed.

Lemma turn_execution_eq s i u :
  user_input i = Some u -> u <> "" -> api_key i <> "" ->
  turn_execution s i = run_turn s i u.
Proof.
  intros Hu Hne Hk. unfold turn_execution. rewrite Hu.
  destruct (String.eqb_spec u ""); [contradiction|].
  destruct (String.eqb_spec (api_key i) ""); [contradiction|]. reflexivity.
Qed.

(** The mental-model call is sent once by the inferencer; the assumption
    inferencer sends none. *)
Lemma mm_call_events svc text key model :
  filter is_mm_call (infer_mental_model_with_llm svc text key model).2
  = [CallMentalModel model text].
Proof. unfold infer_mental_model_with_llm. destruct (mm_try _); reflexivity. Qed.

Lemma assumptions_call_events svc text key model :
  filter is_mm_call (infer_uncertain_assumptions_with_llm svc text key model).2 = []
  /\ filter is_response_call
       (infer_uncertain_assumptions_with_llm svc text key model).2 = [].
Proof.
  unfold infer_uncertain_assumptions_with_llm.
  destruct (assumptions_try _); split; reflexivity.
Qed.

Lemma inference_events_mm_calls s i u :
  filter is_mm_call (inference_events s i u) =
  if infers s then [CallMentalModel (mm_model_name i) u] else [].
Proof.
  unfold inference_events, turn_assumptions. rewrite !filter_app.
  rewrite (proj1 (assumptions_call_events _ _ _ _)).
  destruct (infers s); [rewrite mm_call_events|]; reflexivity.
Qed.

Lemma inference_events_response_calls s i u :
  filter is_response_call (inference_events s i u) = [].
Proof.
  unfold inference_events, turn_assumptions. rewrite !filter_app.
  rewrite (proj2 (assumptions_call_events _ _ _ _)).
  destruct (infers s); [|reflexivity].
  unfold infer_mental_model_with_llm. destruct (mm_try _); reflexivity.
Qed.

(** A turn never writes the lock flag, never lowers the turn counter,
    and leaves a locked model as it is. *)
Lemma run_turn_state s i u :
  let s' := out_state (run_turn s i u) in
  mm_locked s' = mm_locked s
  /\ (turn_index s' = turn_index s \/ turn_index s' = turn_index s + 1)
  /\ mm_values s' = turn_mm_vals s i u.
Proof.
  rewrite run_turn_eq. destruct (turn_prompt s i u) as [p|]; cbv zeta;
    [destruct (response_reply _ _ _ _)|]; cbn; auto.
Qed.

Lemma turn_mm_vals_locked s i u :
  turn_index s <> 0 -> mm_locked s = true -> turn_mm_vals s i u = mm_values s.
Proof.
  intros Ht Hl. unfold turn_mm_vals, infers. rewrite Hl.
  apply Z.eqb_neq in Ht. rewrite Ht. reflexivity.
Qed.

Lemma turn_execution_state s i :
  let s' := out_state (turn_execution s i) in
  mm_locked s' = mm_locked s
  /\ (turn_index s' = turn_index s \/ turn_index s' = turn_index s + 1)
  /\ (turn_index s <> 0 -> mm_locked s = true -> mm_values s' = mm_values s).
Proof.
  unfold turn_execution. destruct (user_input i) as [u|]; [|cbn; auto].
  destruct (String.eqb u ""); [cbn; auto|].
  destruct (String.eqb (api_key i) ""); [cbn; auto|].
  destruct (run_turn_state s i u) as (Hl & Ht & Hv). cbv zeta.
  repeat split; [exact Hl|exact Ht|].
  intros. rewrite Hv. apply turn_mm_vals_locked; assumption.
Qed.

Lemma script_run_state s i :
  let s' := out_state (script_run s i) in
  (mm_locked s = true -> mm_locked s' = true)
  /\ (mm_locked s = false -> mm_locked s' = true ->
      turn_index s <> 0 /\ changed (control_items (widgets i)) (mm_values s) = Some true)
  /\ (turn_index s' = turn_index s \/ turn_index s' = turn_index s + 1)
  /\ (turn_index s <> 0 -> mm_locked s = true -> mm_values s' = mm_values s).
Proof.
  unfold script_run. destruct (shown_controls _); [|cbn; intuition congruence].
  destruct (lock_check s (widgets i)) as [s1|] eqn:E; [|cbn; intuition congruence].
  destruct (lock_check_flag _ _ _ E) as (H1 & H2 & H3).
  destruct (turn_execution_state s1 i) as (Hl & Ht & Hv).
  cbn [prepend out_state] in *.
  split; [intros; rewrite Hl; auto|].
  split; [intros; rewrite Hl in *; auto|].
  split; [rewrite <- H3; exact Ht|].
  intros Hne Hlk.
  assert (s1 = s) as -> by
    (rewrite (lock_check_skipped s (widgets i)) in E by auto; congruence).
  auto.
Qed.

(** ** The session *)

Lemma session_locked X runs : forall s,
  mm_locked s = true -> 0 < turn_index s -> mm_values s = X ->
  Forall (fun st => mm_locked st = true /\ 0 < turn_index st /\ mm_values st = X)
         (session s runs).
Proof.
  induction runs as [|i runs IH]; intros s Hl Ht Hv; cbn [session]; [constructor|].
  destruct (script_run_state s i) as (H1 & _ & H3 & H4). cbv zeta in *.
  assert (Hl' : mm_locked (out_state (script_run s i)) = true) by auto.
  assert (Ht' : 0 < turn_index (out_state (script_run s i))) by (destruct H3; lia).
  assert (Hv' : mm_values (out_state (script_run s i)) = X)
    by (rewrite H4; [assumption|lia|assumption]).
  constructor; [auto|]. apply IH; assumption.
Qed.

Lemma session_stays_locked runs : forall s,
  mm_locked s = true -> Forall (fun st => mm_locked st = true) (session s runs).
Proof.
  induction runs as [|i runs IH]; intros s Hl; cbn [session]; [constructor|].
  destruct (script_run_state s i) as (H1 & _). constructor; [|apply IH]; auto.
Qed.

Lemma session_flag_switches_once runs : forall s,
  exists n : nat, forall (k : nat) st,
    (s :: session s runs) !! k = Some st -> mm_locked st = bool_decide (n <= k)%nat.
Proof.
  induction runs as [|i runs IH]; intros s.
  - exists (if mm_locked s then 0%nat else 1%nat). intros [|k] st; [|discriminate].
    intros [= <-]. destruct (mm_locked s); reflexivity.
  - destruct (mm_locked s) eqn:Hl.
    + exists 0%nat. intros k st Hk.
      rewrite bool_decide_eq_true_2 by lia.
      destruct k as [|k]; [injection Hk as <-; exact Hl|].
      pose proof (session_stays_locked (i :: runs) s Hl) as Hall.
      rewrite Forall_lookup in Hall. exact (Hall k st Hk).
    + destruct (IH (out_state (script_run s i))) as [n Hn]. exists (S n).
      intros [|k] st Hk.
      * injection Hk as <-. rewrite Hl. reflexivity.
      * cbn [session] in Hk. rewrite (Hn k st Hk).
        apply bool_decide_ext. lia.
Qed.

(** C2, as amended.  In a render cycle after the first completed turn,
    with the model unlocked, the stored snapshot typed as the data model
    says (numbers in the seven continuous fields, a boolean, a role
    string) and the sidebar widgets built from it without an exception
    (the role is one of the four options, the sliders accept the seven
    values), the cycle reaches the lock check, and the lock fires if and
    only if one of the nine controls differs from its stored field: by
    more than [1e-6] for a continuous field, by exact inequality for the
    boolean and the role.  When it fires, the stored values become the
    control values as a whole, and the rest of the cycle and every later
    script run of the session keep them and reuse them for their turn
    without an inference call. *)
Theorem lock_fires_iff_controls_differ s i :
  0 < turn_index s -> mm_locked s = false -> schema_typed (mm_values s) = true ->
  is_Some (shown_controls (mm_values s)) ->
  let c := widgets i in
  let after := out_state (script_run s i) in
  exists s',
    lock_check s c = Some s'
    /\ script_run s i = prepend (show_messages s') (turn_execution s' i)
    /\ (mm_locked s' = true <-> controls_differ c (mm_values s) = true)
    /\ (mm_locked after = true <-> controls_differ c (mm_values s) = true)
    /\ (controls_differ c (mm_values s) = false -> s' = s)
    /\ (controls_differ c (mm_values s) = true ->
        s' = set_mm_values (current_from_controls c) (set_mm_locked true s)
        /\ forall runs st,
             st ∈ s' :: session s' runs \/ st ∈ after :: session after runs ->
             mm_locked st = true
             /\ mm_values st = current_from_controls c
             /\ forall i' u,
                  select_mental_model st i' u
                  = (current_from_controls c, "user_locked", st, [])).
Proof.
  intros Ht Hl Hty [shown Hshown] c after.
  assert (Hz : (turn_index s =? 0) = false) by (apply Z.eqb_neq; lia).
  assert (Hrun : forall s', lock_check s c = Some s' ->
             script_run s i = prepend (show_messages s') (turn_execution s' i)).
  { intros s' E. unfold script_run. rewrite Hshown. fold c. rewrite E. reflexivity. }
  assert (Hcheck : lock_check s c
                   = Some (if controls_differ c (mm_values s)
                           then set_mm_values (current_from_controls c) (set_mm_locked true s)
                           else s)).
  { unfold lock_check. rewrite Hz, Hl, (changed_schema_typed c _ Hty). cbn [negb andb].
    destruct (controls_differ c (mm_values s)); reflexivity. }
  assert (Hafter : forall s', lock_check s c = Some s' ->
             mm_locked after = mm_locked s'
             /\ turn_index s' <= turn_index after
             /\ (turn_index s' <> 0 -> mm_locked s' = true -> mm_values after = mm_values s')).
  { intros s' E. subst after. rewrite (Hrun s' E). cbn [prepend out_state].
    destruct (turn_execution_state s' i) as (H1 & H2 & H3). cbv zeta in *.
    split; [exact H1|]. split; [destruct H2; lia|exact H3]. }
  destruct (controls_differ c (mm_values s)) eqn:Hd.
  - set (s' := set_mm_values (current_from_controls c) (set_mm_locked true s)) in *.
    destruct (Hafter s' Hcheck) as (A1 & A2 & A3).
    exists s'. split; [exact Hcheck|]. split; [exact (Hrun s' Hcheck)|].
    split; [cbn; tauto|]. split; [rewrite A1; cbn; tauto|].
    split; [discriminate|]. intros _. split; [reflexivity|].
    intros runs st Hin.
    assert (Hst : mm_locked st = true /\ 0 < turn_index st
                  /\ mm_values st = current_from_controls c).
    { destruct Hin as [Hin|Hin].
      - apply elem_of_cons in Hin as [->|Hin]; [cbn; auto|].
        pose proof (session_locked (current_from_controls c) runs s') as Hall.
        rewrite Forall_forall in Hall. apply Hall; cbn; auto.
      - assert (B1 : mm_locked after = true) by (rewrite A1; reflexivity).
        assert (B2 : 0 < turn_index after) by (cbn in A2; lia).
        assert (B3 : mm_values after = current_from_controls c)
          by (rewrite A3; [reflexivity|cbn; lia|reflexivity]).
        apply elem_of_cons in Hin as [->|Hin]; [auto|].
        pose proof (session_locked (current_from_controls c) runs after B1 B2 B3) as Hall.
        rewrite Forall_forall in Hall. apply Hall. exact Hin. }
    destruct Hst as (Hl' & Ht' & Hv'). repeat split; [assumption..|].
    intros i' u. rewrite select_mental_model_eq. unfold infers, source_tag.
    assert ((turn_index st =? 0) = false) as -> by (apply Z.eqb_neq; lia).
    rewrite Hl', Hv'. reflexivity.
  - destruct (Hafter s Hcheck) as (A1 & _ & _).
    exists s. split; [exact Hcheck|]. split; [exact (Hrun s Hcheck)|].
    split; [rewrite Hl; split; discriminate|].
    split; [rewrite A1, Hl; split; discriminate|].
    split; [reflexivity|discriminate].
Qed.

(** X1.  The lock flag starts false; a script run never clears it; a run sets
    it only when it is not the first turn and the lock check finds a
    changed control, and the lock check is skipped before the first
    completed turn and once the flag is set; so along any session the
    flag is false up to some run and true from then on: it changes at
    most once and never back. *)
Theorem lock_flag_set_once :
  mm_locked initial_state = false
  /\ (forall s i, mm_locked s = true -> mm_locked (out_state (script_run s i)) = true)
  /\ (forall s i,
        mm_locked s = false -> mm_locked (out_state (script_run s i)) = true ->
        turn_index s <> 0
        /\ changed (control_items (widgets i)) (mm_values s) = Some true)
  /\ (forall s c, turn_index s = 0 \/ mm_locked s = true -> lock_check s c = Some s)
  /\ (forall runs, exists n : nat, forall (k : nat) st,
        (initial_state :: session initial_state runs) !! k = Some st ->
        mm_locked st = bool_decide (n <= k)%nat).
Proof.
  split; [reflexivity|].
  split; [intros s i; exact (proj1 (script_run_state s i))|].
  split; [intros s i; exact (proj1 (proj2 (script_run_state s i)))|].
  split; [exact lock_check_skipped|].
  intros runs. apply session_flag_switches_once.
Qed.

(** C4, as amended.  For a message submitted with a non-empty API key:
    on the first turn the mental model is inferred from that message and
    tagged [inferred_first_turn]; on a later turn with the model locked
    the stored values are reused as they are, tagged [user_locked], and
    no mental-model call is sent; on a later turn with the model
    unlocked the model is inferred again from that message alone, tagged
    [inferred_unlocked].  The tag and the values are recorded in the log
    entry of the turn when the turn completes. *)
Theorem turn_selects_mental_model s i u :
  user_input i = Some u -> u <> "" -> api_key i <> "" ->
  let o := turn_execution s i in
  let inferred :=
    (infer_mental_model_with_llm (service i) u (api_key i) (mm_model_name i)).1 in
  let recorded (mm_vals : dict) (tag : string) :=
    out_raised o = false ->
    exists e, last (turn_logs (out_state o)) = Some e
              /\ log_mental_model e = mm_vals /\ log_mental_model_source e = tag in
  (turn_index s = 0 ->
     mm_values (out_state o) = inferred
     /\ filter is_mm_call (out_events o) = [CallMentalModel (mm_model_name i) u]
     /\ recorded inferred "inferred_first_turn")
  /\ (turn_index s <> 0 -> mm_locked s = true ->
     mm_values (out_state o) = mm_values s
     /\ filter is_mm_call (out_events o) = []
     /\ recorded (mm_values s) "user_locked")
  /\ (turn_index s <> 0 -> mm_locked s = false ->
     mm_values (out_state o) = inferred
     /\ filter is_mm_call (out_events o) = [CallMentalModel (mm_model_name i) u]
     /\ recorded inferred "inferred_unlocked").
Proof.
  intros Hu Hne Hk o inferred recorded. subst o recorded inferred.
  rewrite (turn_execution_eq s i u Hu Hne Hk), run_turn_eq.
  assert (Hcase : forall (b : bool) (tag : string),
    infers s = b -> source_tag s = tag ->
    let o :=
      match turn_prompt s i u with
      | None => raised (after_inference s i u) (inference_events s i u)
      | Some p =>
          let call := [CallResponse (response_model_name i) p] in
          match response_reply (service i) (api_key i) (response_model_name i) p with
          | None => raised (after_inference s i u) (inference_events s i u ++ call)
          | Some reply =>
              finished (after_response s i u p reply)
                (inference_events s i u ++ call ++
                 (if turn_index s =? 0 then [Rerun]
                  else [ChatMessage "assistant" reply]))
          end
      end in
    mm_values (out_state o) = turn_mm_vals s i u
    /\ filter is_mm_call (out_events o)
       = (if b then [CallMentalModel (mm_model_name i) u] else [])
    /\ (out_raised o = false ->
        exists e, last (turn_logs (out_state o)) = Some e
                  /\ log_mental_model e = turn_mm_vals s i u
                  /\ log_mental_model_source e = tag)).
  { intros b tag Hb Htag. pose proof (inference_events_mm_calls s i u) as Hev.
    rewrite Hb in Hev.
    destruct (turn_prompt s i u) as [p|]; cbv zeta;
      [destruct (response_reply _ _ _ _) as [reply|]|];
      cbn [out_state out_events out_raised raised finished].
    - split; [reflexivity|]. split.
      + rewrite !filter_app, Hev. destruct (turn_index s =? 0), b; reflexivity.
      + intros _. eexists. split; [apply last_snoc|]. cbn. auto.
    - split; [reflexivity|]. split; [|discriminate].
      rewrite filter_app, Hev. destruct b; reflexivity.
    - split; [reflexivity|]. split; [exact Hev|discriminate]. }
  split; [|split].
  - intros Ht.
    assert (Hi : infers s = true) by (unfold infers; rewrite Ht; reflexivity).
    assert (Hs : source_tag s = "inferred_first_turn")
      by (unfold source_tag; rewrite Ht; reflexivity).
    specialize (Hcase true _ Hi Hs). cbv zeta in Hcase.
    unfold turn_mm_vals in Hcase. rewrite Hi in Hcase. exact Hcase.
  - intros Ht Hl. apply Z.eqb_neq in Ht.
    assert (Hi : infers s = false) by (unfold infers; rewrite Ht, Hl; reflexivity).
    assert (Hs : source_tag s = "user_locked")
      by (unfold source_tag; rewrite Ht, Hl; reflexivity).
    specialize (Hcase false _ Hi Hs). cbv zeta in Hcase.
    unfold turn_mm_vals in Hcase. rewrite Hi in Hcase. exact Hcase.
  - intros Ht Hl. apply Z.eqb_neq in Ht.
    assert (Hi : infers s = true) by (unfold infers; rewrite Ht, Hl; reflexivity).
    assert (Hs : source_tag s = "inferred_unlocked")
      by (unfold source_tag; rewrite Ht, Hl; reflexivity).
    specialize (Hcase true _ Hi Hs). cbv zeta in Hcase.
    unfold turn_mm_vals in Hcase. rewrite Hi in Hcase. exact Hcase.
Qed.

(** C8.  A message submitted while the API-key field is empty aborts the
    turn: the error is shown, no request is sent to the service, and the
    session state is left as it was (messages, mental-model values,
    lock flag, turn counter, assumptions and their history, turn logs).
    In the whole script run the state is the one the sidebar left. *)
Theorem missing_api_key_aborts_turn s i u :
  user_input i = Some u -> u <> "" -> api_key i = "" ->
  let o := turn_execution s i in
  out_state o = s
  /\ out_events o = [Error api_key_error]
  /\ out_raised o = false
  /\ filter is_external_call (out_events o) = []
  /\ (forall s1,
        is_Some (shown_controls (mm_values s)) ->
        lock_check s (widgets i) = Some s1 ->
        out_state (script_run s i) = s1
        /\ filter is_external_call (out_events (script_run s i)) = []).
Proof.
  intros Hu Hne Hk o.
  assert (Ho : forall s0, turn_execution s0 i = finished s0 [Error api_key_error]).
  { intros s0. unfold turn_execution. rewrite Hu, Hk.
    destruct (String.eqb_spec u ""); [contradiction|]. reflexivity. }
  subst o. rewrite Ho. do 4 (split; [reflexivity|]).
  intros s1 [c Hc] Hs1. unfold script_run. rewrite Hc, Hs1, Ho. split; [reflexivity|].
  cbn [prepend out_events finished].
  rewrite filter_app. cbn. rewrite app_nil_r. unfold show_messages.
  induction (messages s1) as [|m ms IH]; [reflexivity|exact IH].
Qed.

(** C9.  When the response call raises after steps 1 and 2 of a turn,
    what these steps stored stays: the user message is in the
    transcript, the mental-model values are the inferred ones when
    inference ran, the latest assumptions and their history entry are
    recorded.  The call is sent once, no log entry is appended, and the
    turn counter is not incremented. *)
Theorem response_failure_keeps_stored_results s i u p :
  user_input i = Some u -> u <> "" -> api_key i <> "" ->
  turn_prompt s i u = Some p ->
  response_reply (service i) (api_key i) (response_model_name i) p = None ->
  let o := turn_execution s i in
  let s' := out_state o in
  out_raised o = true
  /\ messages s' = messages s ++ [ {| role := "user"; content := u |} ]
  /\ mm_values s' =
     (if (turn_index s =? 0) || negb (mm_locked s)
      then (infer_mental_model_with_llm (service i) u (api_key i) (mm_model_name i)).1
      else mm_values s)
  /\ assumptions_latest s' = Some (turn_assumptions s i u).1
  /\ assumptions_history s' =
     assumptions_history s ++
     [ {| h_turn_index := turn_index s + 1;
          h_timestamp := now_history i;
          h_assumptions := (turn_assumptions s i u).1 |} ]
  /\ turn_logs s' = turn_logs s
  /\ turn_index s' = turn_index s
  /\ mm_locked s' = mm_locked s
  /\ filter is_response_call (out_events o) = [CallResponse (response_model_name i) p].
Proof.
  intros Hu Hne Hk Hp Hr o s'. subst s' o.
  rewrite (turn_execution_eq s i u Hu Hne Hk), run_turn_eq, Hp. cbv zeta.
  rewrite Hr. cbn [out_state out_events out_raised raised].
  repeat split.
  rewrite filter_app, inference_events_response_calls. reflexivity.
Qed.

(** ** The Assumption Inferencer *)

Lemma clean_item_cases item :
  (has_both_keys item = false /\ clean_item item = Some None)
  \/ (has_both_keys item = true /\ probability_converts item = false
      /\ clean_item item = None)
  \/ (has_both_keys item = true /\ probability_converts item = true
      /\ exists e, clean_item item = Some (Some e) /\ cleaned_from item e).
Proof.
  destruct item as [| | | | | |d]; try (left; split; reflexivity).
  unfold has_both_keys, probability_converts, clean_item, cleaned_from.
  destruct (d !! "assumption") as [a|] eqn:Ea;
    [|left; split; reflexivity].
  destruct (d !! "probability") as [p|] eqn:Ep;
    [|left; split; reflexivity].
  right. destruct (py_float p) as [f|] eqn:Ef.
  - right. rewrite !bool_decide_eq_true_2 by eauto.
    repeat split. eexists. split; [reflexivity|].
    exists d, a, p, f. repeat split; assumption.
  - left. rewrite !bool_decide_eq_true_2 by eauto.
    rewrite bool_decide_eq_false_2 by (intros [? ?]; discriminate).
    repeat split.
Qed.


(** The loop keeps, in order, the entries that have both keys. *)
Lemma clean_items_kept items out :
  clean_items items = Some out ->
  Forall2 cleaned_from (filter has_both_keys items) out.
Proof.
  revert out. induction items as [|item items IH]; intros out; cbn [clean_items].
  - intros [= <-]. constructor.
  - destruct (clean_item_cases item) as [(Hk & ->)|[(Hk & _ & ->)|(Hk & _ & e & -> & He)]].
    + intros H. rewrite filter_cons_False by (rewrite Hk; exact id). auto.
    + discriminate.
    + destruct (clean_items items) as [out'|]; [|discriminate].
      intros [= <-]. rewrite filter_cons_True by (rewrite Hk; exact I).
      constructor; auto.
Qed.

(** The loop raises only on an entry whose probability does not convert. *)
Lemma clean_items_converts items :
  Forall (fun item => probability_converts item = true) items ->
  is_Some (clean_items items).
Proof.
  induction 1 as [|item items Hc _ IH]; cbn [clean_items]; [eauto|].
  destruct (clean_item_cases item) as [(_ & ->)|[(_ & Hn & _)|(_ & _ & e & -> & _)]];
    [assumption|congruence|].
  destruct IH as [out' ->]. cbn. eauto.
Qed.

Lemma assumptions_try_eq reply :
  assumptions_try reply =
  match assumptions_list reply with
  | Some l => clean_items (take 10 l)
  | None => None
  end.
Proof.
  destruct reply as [[| | | | | |data]|]; try reflexivity. cbn.
  destruct (data !! "assumptions") as [[]|]; reflexivity.
Qed.




Lemma infer_assumptions_converting svc convo key model l :
  assumptions_list (assumptions_reply svc key model convo) = Some l ->
  Forall (fun item => probability_converts item = true) (take 10 l) ->
  let out := infer_uncertain_assumptions_with_llm svc convo key model in
  Forall2 cleaned_from (filter has_both_keys (take 10 l)) (assumptions out.1)
  /\ out.2 = [CallAssumptions model convo].
Proof.
  intros Hl Hc out. subst out. unfold infer_uncertain_assumptions_with_llm.
  rewrite assumptions_try_eq, Hl.
  destruct (clean_items_converts _ Hc) as [c E]. rewrite E. cbn [fst snd assumptions].
  split; [exact (clean_items_kept _ _ E)|reflexivity].
Qed.

(** C7, as amended.  The Assumption Inferencer always returns a value:
    no exception passes its boundary.  On a top-level parse or shape
    failure it returns the empty list with a warning.  On a reply that
    is an object with a list under [assumptions], and in which
    [float()] accepts the probability of every considered entry, it
    returns without a warning exactly the entries among the first ten
    that are objects with an [assumption] key and a [probability] key,
    in order and coerced; the other entries are dropped, neither
    replaced nor defaulted. *)
Theorem assumptions_drop_only_incomplete svc convo key model :
  let reply := assumptions_reply svc key model convo in
  let out := infer_uncertain_assumptions_with_llm svc convo key model in
  (assumptions_list reply = None ->
     out = ({| assumptions := [] |},
            [CallAssumptions model convo; Warning assumptions_warning]))
  /\ (forall l,
        assumptions_list reply = Some l ->
        Forall (fun item => probability_converts item = true) (take 10 l) ->
        Forall2 cleaned_from (filter has_both_keys (take 10 l)) (assumptions out.1)
        /\ out.2 = [CallAssumptions model convo]).
Proof.
  intros reply out. split.
  - intros Hn. subst out. unfold infer_uncertain_assumptions_with_llm.
    fold reply. rewrite assumptions_try_eq, Hn. reflexivity.
  - intros l Hl Hc. exact (infer_assumptions_converting svc convo key model l Hl Hc).
Qed.

(** C10, as amended.  In a reply of the expected shape in which
    [float()] accepts the probability of every considered entry, an
    entry among the first ten that is an object with an [assumption]
    key and a [probability] key and no [evidence] key is kept: its
    evidence is the empty string, its assumption is coerced with
    [str()], its probability converted and clamped. *)
Theorem entry_without_evidence_kept svc convo key model l (n : nat) d a p :
  assumptions_list (assumptions_reply svc key model convo) = Some l ->
  Forall (fun item => probability_converts item = true) (take 10 l) ->
  (n < 10)%nat ->
  l !! n = Some (PDict d) ->
  d !! "assumption" = Some a ->
  d !! "probability" = Some p ->
  d !! "evidence" = None ->
  exists f,
    py_float p = Some f
    /\ {| assumption := py_str a; probability := clamp01 f; evidence := "" |}
       ∈ assumptions (infer_uncertain_assumptions_with_llm svc convo key model).1.
Proof.
  intros Hl Hc Hn Hd Ha Hp He.
  destruct (infer_assumptions_converting svc convo key model l Hl Hc) as [Hk _].
  assert (Hin : PDict d ∈ filter has_both_keys (take 10 l)).
  { apply list_elem_of_filter. split.
    - cbn. rewrite Ha, Hp. rewrite !bool_decide_eq_true_2 by eauto. exact I.
    - apply list_elem_of_lookup. exists n. rewrite lookup_take_lt; assumption. }
  apply list_elem_of_lookup in Hin as [m Hm].
  destruct (Forall2_lookup_l _ _ _ _ _ Hk Hm) as (e & Hem & Hce).
  destruct Hce as (d' & a' & p' & f & [= <-] & Ha' & Hp' & Hf & ->).
  rewrite Ha in Ha'. rewrite Hp in Hp'. injection Ha' as <-. injection Hp' as <-.
  exists f. split; [exact Hf|]. rewrite He in Hem. cbn in Hem.
  apply list_elem_of_lookup. exists m. exact Hem.
Qed.


(** * Further properties of the script *)

(** ** The keys of a mental model *)

Lemma list_to_map_is_Some (l : list (string * pyval)) k :
  is_Some ((list_to_map l : dict) !! k) <-> k ∈ l.*1.
Proof.
  destruct ((list_to_map l : dict) !! k) eqn:E.
  - split; [intros _|eauto].
    destruct (decide (k ∈ l.*1)) as [|Hn]; [assumption|].
    apply (not_elem_of_list_to_map_1 (M := gmap string)) in Hn. congruence.
  - split; [intros [? ?]; discriminate|]. intros Hin.
    apply not_elem_of_list_to_map_2 in E. contradiction.
Qed.

Lemma default_mm_keys k : is_Some (DEFAULT_MM !! k) <-> k ∈ mm_keys.
Proof. apply list_to_map_is_Some. Qed.

Lemma current_from_controls_keys c k :
  is_Some (current_from_controls c !! k) <-> k ∈ mm_keys.
Proof. unfold current_from_controls. rewrite list_to_map_is_Some. reflexivity. Qed.

(** The loop of the inferencer assigns to keys the copy already has. *)
Lemma overwrite_present_keys keys mm cleaned out :
  (forall k, k ∈ keys -> is_Some (cleaned !! k)) ->
  overwrite_present keys mm cleaned = Some out ->
  forall k, is_Some (out !! k) <-> is_Some (cleaned !! k).
Proof.
  revert cleaned. induction keys as [|k0 keys IH]; intros cleaned Hin; cbn [overwrite_present].
  - intros [= <-]. reflexivity.
  - destruct (py_contains k0 mm) as [[|]|]; [|apply IH; intros; apply Hin; by right|discriminate].
    destruct (py_getitem mm k0) as [v|]; [|discriminate].
    intros Ho k.
    assert (Hk : is_Some (<[k0:=v]> cleaned !! k) <-> is_Some (cleaned !! k)).
    { destruct (decide (k0 = k)) as [<-|Hne].
      - rewrite lookup_insert_eq. split; [intros _; apply Hin; left|eauto].
      - rewrite lookup_insert_ne by assumption. reflexivity. }
    rewrite <- Hk. apply (IH (<[k0:=v]> cleaned)); [|exact Ho].
    intros k' Hk'. destruct (decide (k0 = k')) as [<-|Hne].
    + rewrite lookup_insert_eq. eauto.
    + rewrite lookup_insert_ne by assumption. apply Hin. by right.
Qed.

Lemma infer_mental_model_keys svc text key model k :
  is_Some ((infer_mental_model_with_llm svc text key model).1 !! k) <-> k ∈ mm_keys.
Proof.
  unfold infer_mental_model_with_llm, mm_try.
  destruct (mental_model_reply svc key model text) as [mm|]; [|apply default_mm_keys].
  destruct (overwrite_present mm_keys mm DEFAULT_MM) as [out|] eqn:E;
    [|apply default_mm_keys].
  cbn [fst]. rewrite <- default_mm_keys.
  apply (overwrite_present_keys mm_keys mm DEFAULT_MM out); [|exact E].
  intros k' Hk'. apply default_mm_keys. exact Hk'.
Qed.

(** ** The preamble *)

Lemma field_2f_is_Some mm k :
  is_Some (field_2f mm k) <->
  match mm !! k with
  | Some v => is_number v && bool_decide (is_Some (float_of_number v))
  | None => false
  end = true.
Proof.
  unfold field_2f. destruct (mm !! k) as [v|]; [|split; [intros [? ?]|]; discriminate].
  destruct (is_number v); cbn [andb]; [|split; [intros [? ?]|]; discriminate].
  rewrite bool_decide_eq_true. destruct (float_of_number v); cbn [option_map].
  - split; eauto.
  - split; intros [? ?]; discriminate.
Qed.

Lemma field_str_is_Some mm k : is_Some (field_str mm k) <-> is_Some (mm !! k).
Proof. unfold field_str. destruct (mm !! k); cbn; split; intros [? ?]; eauto; discriminate. Qed.

Lemma preamble_is_Some mm :
  is_Some (build_mental_model_preamble mm) <-> preamble_ready mm = true.
Proof.
  unfold preamble_ready, probability_fields. cbn [forallb].
  rewrite !andb_true_iff, !bool_decide_eq_true.
  rewrite <- !field_2f_is_Some, <- !field_str_is_Some.
  unfold build_mental_model_preamble.
  destruct (field_2f mm "user_certainty"); cbn [mbind option_bind];
    [|rewrite !is_Some_alt; tauto].
  destruct (field_2f mm "model_seen_as_expert"); cbn [mbind option_bind];
    [|rewrite !is_Some_alt; tauto].
  destruct (field_str mm "expects_correction"); cbn [mbind option_bind];
    [|rewrite !is_Some_alt; tauto].
  destruct (field_2f mm "validation_seeking"); cbn [mbind option_bind];
    [|rewrite !is_Some_alt; tauto].
  destruct (field_2f mm "objectivity_seeking"); cbn [mbind option_bind];
    [|rewrite !is_Some_alt; tauto].
  destruct (field_2f mm "empathy_expectation"); cbn [mbind option_bind];
    [|rewrite !is_Some_alt; tauto].
  destruct (field_2f mm "directness"); cbn [mbind option_bind];
    [|rewrite !is_Some_alt; tauto].
  destruct (field_2f mm "informativeness"); cbn [mbind option_bind];
    [|rewrite !is_Some_alt; tauto].
  destruct (field_str mm "assistant_role"); cbn [mbind option_bind];
    rewrite !is_Some_alt; tauto.
Qed.

Lemma turn_prompt_ready s i u p :
  turn_prompt s i u = Some p -> preamble_ready (turn_mm_vals s i u) = true.
Proof.
  unfold turn_prompt. intros H. apply preamble_is_Some.
  destruct (build_mental_model_preamble _); [eauto|discriminate].
Qed.

(** ** What every state of a session satisfies *)

Lemma assistant_count_user ms u :
  assistant_count (ms ++ [user_message u]) = assistant_count ms.
Proof.
  unfold assistant_count. rewrite filter_app, length_app.
  rewrite filter_cons_False by discriminate. cbn. lia.
Qed.

Lemma assistant_count_turn ms u reply :
  assistant_count (ms ++ [user_message u; assistant_message reply])
  = S (assistant_count ms).
Proof.
  unfold assistant_count. rewrite filter_app, length_app.
  rewrite filter_cons_False by discriminate.
  rewrite filter_cons_True by reflexivity. cbn. lia.
Qed.

Lemma session_inv_initial : session_inv initial_state.
Proof.
  constructor; cbn [initial_state turn_index turn_logs messages assumptions_latest
                    assumptions_history mm_values mm_locked].
  - reflexivity.
  - intros k e Hk. rewrite lookup_nil in Hk. discriminate.
  - reflexivity.
  - reflexivity.
  - intros e He. by apply elem_of_nil in He.
  - intros h Hh. by apply elem_of_nil in Hh.
  - apply default_mm_keys.
  - discriminate.
  - intros e He. by apply elem_of_nil in He.
  - intros e He. by apply elem_of_nil in He.
  - intros e He. by apply elem_of_nil in He.
Qed.

Lemma session_inv_lock_check s c s1 :
  lock_check s c = Some s1 -> session_inv s -> session_inv s1.
Proof.
  intros Hc Hs. unfold lock_check in Hc.
  destruct (turn_index s =? 0) eqn:Et; cbn [negb andb] in Hc; [congruence|].
  destruct (mm_locked s) eqn:El; cbn [negb] in Hc; [congruence|].
  destruct (changed _ _) as [[|]|]; [|congruence|discriminate].
  injection Hc as <-. apply Z.eqb_neq in Et. destruct Hs.
  constructor; cbn [set_mm_values set_mm_locked turn_index turn_logs messages
                    assumptions_latest assumptions_history mm_values mm_locked];
    try assumption.
  - apply current_from_controls_keys.
  - intros _. exact Et.
  - intros e He. destruct (inv_log_model0 e He) as [Hr Hf]. split; [exact Hr|].
    intros Hl. destruct (Hf Hl) as [Hl' _]. congruence.
Qed.

Lemma infers_locked s :
  session_inv s -> mm_locked s = true -> infers s = false.
Proof.
  intros Hs Hl. unfold infers. rewrite Hl.
  pose proof (inv_locked s Hs Hl) as Ht. apply Z.eqb_neq in Ht. rewrite Ht. reflexivity.
Qed.

Lemma session_inv_after_inference s i u :
  session_inv s -> session_inv (after_inference s i u).
Proof.
  intros Hs. pose proof Hs as [H1 H2 H3 H4 H5 H6 H7 H8 H9 H10 H11].
  unfold after_inference.
  constructor; cbn [turn_index turn_logs messages assumptions_latest
                    assumptions_history mm_values mm_locked];
    try assumption.
  - fold (user_message u). rewrite assistant_count_user. exact H3.
  - rewrite last_snoc. reflexivity.
  - intros e He. destruct (H5 e He) as (h & Hh & Hi & Ha).
    exists h. split; [apply elem_of_app; left; exact Hh|auto].
  - intros h [Hh|Hh]%elem_of_app; [apply H6; exact Hh|].
    apply list_elem_of_singleton in Hh as ->. cbn [h_turn_index]. lia.
  - intros k. destruct (infers s); [apply infer_mental_model_keys|apply H7].
  - intros e He. destruct (H9 e He) as [Hex Hp]. split; [exact Hex|].
    apply prefix_app_r. exact Hp.
  - intros e He. destruct (H11 e He) as [Hr Hf]. split; [exact Hr|].
    intros Hl. destruct (Hf Hl) as [Hl' Hm]. split; [exact Hl'|].
    rewrite (infers_locked s Hs Hl'). exact Hm.
Qed.

Lemma source_tag_cases s :
  session_inv s ->
  (source_tag s = "user_locked" <-> mm_locked s = true)
  /\ (source_tag s = "inferred_first_turn" <-> turn_index s + 1 = 1)
  /\ (source_tag s = "inferred_unlocked"
      <-> mm_locked s = false /\ turn_index s + 1 <> 1).
Proof.
  intros Hs. pose proof (inv_locked s Hs) as Hl. unfold source_tag.
  destruct (turn_index s =? 0) eqn:Et;
    [apply Z.eqb_eq in Et|apply Z.eqb_neq in Et];
    destruct (mm_locked s); try (exfalso; auto; fail);
    (split; [|split]); split;
    try (intros H; discriminate H); try (intros; lia); try (intros; reflexivity);
    try (intros [H1 H2]; first [discriminate H1|lia]);
    try (intros _; split; [reflexivity|lia]).
Qed.

Lemma session_inv_after_response s i u p reply :
  session_inv s -> turn_prompt s i u = Some p ->
  session_inv (after_response s i u p reply).
Proof.
  intros Hs Hp. pose proof (session_inv_after_inference s i u Hs) as Hs3.
  pose proof Hs as [H1 H2 H3 H4 H5 H6 H7 H8 H9 H10 H11].
  pose proof Hs3 as [_ _ _ K4 _ K6 K7 _ _ _ _].
  assert (H0 : 0 <= turn_index s) by lia.
  unfold after_response.
  constructor; cbn [turn_index turn_logs messages assumptions_latest
                    assumptions_history mm_values mm_locked];
    try assumption.
  - rewrite length_app. cbn. lia.
  - intros k e Hk. apply lookup_app_Some in Hk as [Hk|[Hlen Hk]]; [apply H2; exact Hk|].
    apply list_lookup_singleton_Some in Hk as [Hk <-].
    cbn [turn_log_entry log_turn_index]. lia.
  - fold (assistant_message reply). rewrite assistant_count_turn. lia.
  - intros e [He|He]%elem_of_app.
    + destruct (H5 e He) as (h & Hh & Hi & Ha). exists h.
      split; [cbn [after_inference assumptions_history]; apply elem_of_app; left; exact Hh|auto].
    + apply list_elem_of_singleton in He as ->.
      eexists. split; [cbn [after_inference assumptions_history]; apply elem_of_app;
                       right; apply list_elem_of_singleton; reflexivity|].
      split; reflexivity.
  - intros h Hh. apply K6 in Hh. cbn [after_inference turn_index] in Hh. lia.
  - intros _. lia.
  - intros e [He|He]%elem_of_app.
    + destruct (H9 e He) as [Hex Hpre]. split; [exact Hex|].
      apply prefix_app_r. exact Hpre.
    + apply list_elem_of_singleton in He as ->.
      cbn [turn_log_entry log_conversation_so_far log_user_message log_assistant_message].
      split; [exists (messages s); reflexivity|reflexivity].
  - intros e [He|He]%elem_of_app; [apply H10; exact He|].
    apply list_elem_of_singleton in He as ->.
    cbn [turn_log_entry log_mental_model_source log_mm_locked log_turn_index].
    exact (source_tag_cases s Hs).
  - intros e [He|He]%elem_of_app.
    + destruct (H11 e He) as [Hr Hf]. split; [exact Hr|].
      intros Hl. destruct (Hf Hl) as [Hl' Hm]. split; [exact Hl'|].
      cbn [after_inference mm_values]. rewrite (infers_locked s Hs Hl'). exact Hm.
    + apply list_elem_of_singleton in He as ->.
      cbn [turn_log_entry log_mental_model log_mm_locked].
      split; [exact (turn_prompt_ready s i u p Hp)|].
      intros Hl. split; [exact Hl|].
      cbn [after_inference mm_values]. unfold turn_mm_vals. reflexivity.
Qed.

Lemma session_inv_run_turn s i u :
  session_inv s -> session_inv (out_state (run_turn s i u)).
Proof.
  intros Hs. rewrite run_turn_eq.
  destruct (turn_prompt s i u) as [p|] eqn:Hp; cbv zeta;
    [|exact (session_inv_after_inference s i u Hs)].
  destruct (response_reply _ _ _ _) as [reply|];
    [exact (session_inv_after_response s i u p reply Hs Hp)
    |exact (session_inv_after_inference s i u Hs)].
Qed.

Lemma session_inv_script_run s i :
  session_inv s -> session_inv (out_state (script_run s i)).
Proof.
  intros Hs. unfold script_run.
  destruct (shown_controls _); [|exact Hs].
  destruct (lock_check s (widgets i)) as [s1|] eqn:E; [|exact Hs].
  apply (session_inv_lock_check s (widgets i) s1 E) in Hs.
  cbn [prepend out_state]. unfold turn_execution.
  destruct (user_input i) as [u|]; [|exact Hs].
  destruct (String.eqb u ""); [exact Hs|].
  destruct (String.eqb (api_key i) ""); [exact Hs|].
  apply session_inv_run_turn. exact Hs.
Qed.

Lemma session_inv_session runs : forall s,
  session_inv s -> Forall session_inv (session s runs).
Proof.
  induction runs as [|i runs IH]; intros s Hs; cbn [session]; [constructor|].
  pose proof (session_inv_script_run s i Hs). constructor; [assumption|].
  apply IH. assumption.
Qed.

Lemma session_inv_reachable runs st :
  st ∈ initial_state :: session initial_state runs -> session_inv st.
Proof.
  intros [->|Hin]%elem_of_cons; [exact session_inv_initial|].
  pose proof (session_inv_session runs initial_state session_inv_initial) as H.
  rewrite Forall_forall in H. exact (H st Hin).
Qed.

(** X5.  Along any session the turn counter equals the number of log
    entries and the number of assistant messages in the transcript, and
    the log entries are numbered 1, 2, 3, ... in the order they were
    appended. *)
Theorem session_turns_numbered runs st :
  st ∈ initial_state :: session initial_state runs ->
  turn_index st = Z.of_nat (length (turn_logs st))
  /\ Z.of_nat (assistant_count (messages st)) = turn_index st
  /\ forall (k : nat) e, turn_logs st !! k = Some e -> log_turn_index e = Z.of_nat (S k).
Proof.
  intros H. destruct (session_inv_reachable runs st H). auto.
Qed.

(** X6.  Along any session every log entry's conversation snapshot ends
    with the user message and the assistant reply of its turn, and is a
    prefix of the current transcript. *)
Theorem session_logs_match_transcript runs st e :
  st ∈ initial_state :: session initial_state runs ->
  e ∈ turn_logs st ->
  (exists ms,
     log_conversation_so_far e
     = ms ++ [ {| role := "user"; content := log_user_message e |};
               {| role := "assistant"; content := log_assistant_message e |} ])
  /\ log_conversation_so_far e `prefix_of` messages st.
Proof.
  intros H He. destruct (session_inv_reachable runs st H).
  exact (inv_transcript0 e He).
Qed.

(** X7.  Along any session the latest assumptions shown in the sidebar
    are those of the last history entry; the history entries carry turn
    numbers between 1 and the number of the turn after the last completed
    one; and the assumptions of every log entry are in the history under
    the same turn number. *)
Theorem session_assumptions_recorded runs st :
  st ∈ initial_state :: session initial_state runs ->
  assumptions_latest st = h_assumptions <$> last (assumptions_history st)
  /\ (forall h, h ∈ assumptions_history st -> 1 <= h_turn_index h <= turn_index st + 1)
  /\ (forall e, e ∈ turn_logs st ->
        exists h, h ∈ assumptions_history st
                  /\ h_turn_index h = log_turn_index e
                  /\ h_assumptions h = log_assumptions e).
Proof.
  intros H. destruct (session_inv_reachable runs st H). auto.
Qed.

(** X8.  Along any session the stored mental model has exactly the nine
    keys of [DEFAULT_MM], whatever the service replied and whatever the
    controls returned. *)
Theorem session_mental_model_keys runs st k :
  st ∈ initial_state :: session initial_state runs ->
  is_Some (mm_values st !! k) <-> k ∈ mm_keys.
Proof.
  intros H. destruct (session_inv_reachable runs st H). auto.
Qed.

(** X9.  Along any session the source tag of a log entry tells how its
    turn got the mental model: [user_locked] exactly on the entries
    logged while locked, [inferred_first_turn] exactly on the entry
    numbered 1, [inferred_unlocked] exactly on the others; the flag is
    never set before the first completed turn. *)
Theorem session_log_tags runs st :
  st ∈ initial_state :: session initial_state runs ->
  (mm_locked st = true -> turn_index st <> 0)
  /\ forall e, e ∈ turn_logs st ->
       (log_mental_model_source e = "user_locked" <-> log_mm_locked e = true)
       /\ (log_mental_model_source e = "inferred_first_turn" <-> log_turn_index e = 1)
       /\ (log_mental_model_source e = "inferred_unlocked"
           <-> log_mm_locked e = false /\ log_turn_index e <> 1).
Proof.
  intros H. destruct (session_inv_reachable runs st H). auto.
Qed.

(** X10.  Along any session every turn logged while locked used the
    mental model that is stored now: once locked, all logged models are
    the same.  Every logged model, locked or not, has numbers in its
    seven continuous fields. *)
Theorem session_locked_model_frozen runs st e :
  st ∈ initial_state :: session initial_state runs ->
  e ∈ turn_logs st ->
  preamble_ready (log_mental_model e) = true
  /\ (log_mm_locked e = true ->
      mm_locked st = true /\ log_mental_model e = mm_values st).
Proof.
  intros H He. destruct (session_inv_reachable runs st H).
  exact (inv_log_model0 e He).
Qed.

(** ** The lists of the session state only grow *)

Lemma lock_check_lists s c s1 :
  lock_check s c = Some s1 ->
  messages s1 = messages s /\ turn_logs s1 = turn_logs s
  /\ assumptions_history s1 = assumptions_history s
  /\ assumptions_latest s1 = assumptions_latest s
  /\ turn_index s1 = turn_index s
  /\ (s1 = s
      \/ (mm_locked s = false
          /\ s1 = set_mm_values (current_from_controls c) (set_mm_locked true s))).
Proof.
  unfold lock_check. destruct (turn_index s =? 0); cbn [negb andb].
  - intros [= <-]. auto 10.
  - destruct (mm_locked s); cbn [negb].
    + intros [= <-]. auto 10.
    + destruct (changed _ _) as [[|]|]; intros [= <-]; cbn; auto 10.
Qed.

Lemma run_turn_appends s i u :
  let s' := out_state (run_turn s i u) in
  messages s `prefix_of` messages s'
  /\ turn_logs s `prefix_of` turn_logs s'
  /\ assumptions_history s `prefix_of` assumptions_history s'
  /\ turn_index s <= turn_index s'.
Proof.
  rewrite run_turn_eq. destruct (turn_prompt s i u) as [p|]; cbv zeta;
    [destruct (response_reply _ _ _ _)|];
    cbn [out_state finished raised after_response after_inference messages turn_logs
         assumptions_history turn_index];
    repeat split; try reflexivity; try (apply prefix_app_r; reflexivity); lia.
Qed.

Lemma script_run_appends s i :
  let s' := out_state (script_run s i) in
  messages s `prefix_of` messages s'
  /\ turn_logs s `prefix_of` turn_logs s'
  /\ assumptions_history s `prefix_of` assumptions_history s'
  /\ turn_index s <= turn_index s'.
Proof.
  assert (Hrefl : messages s `prefix_of` messages s
                  /\ turn_logs s `prefix_of` turn_logs s
                  /\ assumptions_history s `prefix_of` assumptions_history s
                  /\ turn_index s <= turn_index s)
    by (repeat split; try reflexivity; lia).
  unfold script_run. destruct (shown_controls _); [|exact Hrefl].
  destruct (lock_check s (widgets i)) as [s1|] eqn:E; [|exact Hrefl].
  destruct (lock_check_lists _ _ _ E) as (Hm & Hl & Hh & _ & Ht & _).
  cbn [prepend out_state]. rewrite <- Hm, <- Hl, <- Hh, <- Ht.
  unfold turn_execution.
  destruct (user_input i) as [u|];
    [|cbn [finished out_state]; repeat split; try reflexivity; lia].
  destruct (String.eqb u "");
    [cbn [finished out_state]; repeat split; try reflexivity; lia|].
  destruct (String.eqb (api_key i) "");
    [cbn [finished out_state]; repeat split; try reflexivity; lia|].
  apply run_turn_appends.
Qed.

(** X11.  Nothing is ever removed or rewritten: from any state, the
    transcript, the turn log and the assumption history of the state are
    prefixes of those of every later state of the session, and the turn
    counter never decreases. *)
Theorem session_append_only runs : forall s st,
  st ∈ session s runs ->
  messages s `prefix_of` messages st
  /\ turn_logs s `prefix_of` turn_logs st
  /\ assumptions_history s `prefix_of` assumptions_history st
  /\ turn_index s <= turn_index st.
Proof.
  induction runs as [|i runs IH]; intros s st Hin; cbn [session] in Hin.
  - by apply elem_of_nil in Hin.
  - destruct (script_run_appends s i) as (Hm & Hl & Hh & Ht). cbv zeta in *.
    apply elem_of_cons in Hin as [->|Hin]; [auto|].
    destruct (IH _ _ Hin) as (Hm' & Hl' & Hh' & Ht').
    repeat split; try (etrans; eassumption); lia.
Qed.

(** ** The controls and the stored model *)

Lemma role_index_member r :
  r ∈ role_options ->
  exists n : nat, list_find (fun o => o = r) role_options = Some (n, r)
                  /\ role_options !! n = Some r.
Proof.
  unfold role_options. intros H.
  repeat (apply elem_of_cons in H as [->|H];
          [eexists; split; [vm_compute; reflexivity|reflexivity]|]).
  by apply elem_of_nil in H.
Qed.

(** X12.  Locking stores what the widgets return, and that round-trips:
    from controls whose role is one of the four options, the stored model
    has the types of the data model, the sidebar built from it shows the
    same controls again (it is built exactly when the slider accepts the
    seven continuous values, as it does for values it returned), and the
    comparison of the controls with it finds no change. *)
Theorem controls_round_trip c :
  assistant_role c ∈ role_options ->
  shown_controls (current_from_controls c)
  = (if forallb slider_accepts
          [ user_certainty c; model_seen_as_expert c; validation_seeking c;
            objectivity_seeking c; empathy_expectation c; directness c;
            informativeness c ]
     then Some c else None)
  /\ schema_typed (current_from_controls c) = true
  /\ changed (control_items c) (current_from_controls c) = Some false.
Proof.
  intros Hr. destruct (role_index_member _ Hr) as (n & Hf & Hn).
  destruct c as [uc ex co va ob em di inf ro]. cbn [assistant_role] in *.
  assert (Hs : shown_controls
                 (current_from_controls
                    {| user_certainty := uc; model_seen_as_expert := ex;
                       expects_correction := co; validation_seeking := va;
                       objectivity_seeking := ob; empathy_expectation := em;
                       directness := di; informativeness := inf;
                       assistant_role := ro |})
               = (if forallb slider_accepts [uc; ex; va; ob; em; di; inf]
                  then Some {| user_certainty := uc; model_seen_as_expert := ex;
                               expects_correction := co; validation_seeking := va;
                               objectivity_seeking := ob; empathy_expectation := em;
                               directness := di; informativeness := inf;
                               assistant_role := ro |}
                  else None)).
  { unfold shown_controls, slider_value, role_index.
    change (current_from_controls _ !! "user_certainty") with (Some (PFloat uc)).
    change (current_from_controls _ !! "model_seen_as_expert") with (Some (PFloat ex)).
    change (current_from_controls _ !! "expects_correction") with (Some (PBool co)).
    change (current_from_controls _ !! "validation_seeking") with (Some (PFloat va)).
    change (current_from_controls _ !! "objectivity_seeking") with (Some (PFloat ob)).
    change (current_from_controls _ !! "empathy_expectation") with (Some (PFloat em)).
    change (current_from_controls _ !! "directness") with (Some (PFloat di)).
    change (current_from_controls _ !! "informativeness") with (Some (PFloat inf)).
    change (current_from_controls _ !! "assistant_role") with (Some (PStr ro)).
    cbn [py_float float_of_number forallb].
    destruct (slider_accepts uc); [|reflexivity].
    destruct (slider_accepts ex); [|reflexivity].
    destruct (slider_accepts va); [|reflexivity].
    destruct (slider_accepts ob); [|reflexivity].
    destruct (slider_accepts em); [|reflexivity].
    destruct (slider_accepts di); [|reflexivity].
    destruct (slider_accepts inf); [|reflexivity].
    cbn [mbind option_bind py_bool andb].
    rewrite Hf. cbn [fmap option_fmap option_map fst mbind option_bind].
    rewrite Hn. reflexivity. }
  assert (Ht : schema_typed
                 (current_from_controls
                    {| user_certainty := uc; model_seen_as_expert := ex;
                       expects_correction := co; validation_seeking := va;
                       objectivity_seeking := ob; empathy_expectation := em;
                       directness := di; informativeness := inf;
                       assistant_role := ro |}) = true) by reflexivity.
  split; [exact Hs|]. split; [exact Ht|].
  unfold control_items.
  cbn [changed user_certainty model_seen_as_expert expects_correction
       validation_seeking objectivity_seeking empathy_expectation directness
       informativeness assistant_role].
  change (current_from_controls _ !! "user_certainty") with (Some (PFloat uc)).
  change (current_from_controls _ !! "model_seen_as_expert") with (Some (PFloat ex)).
  change (current_from_controls _ !! "expects_correction") with (Some (PBool co)).
  change (current_from_controls _ !! "validation_seeking") with (Some (PFloat va)).
  change (current_from_controls _ !! "objectivity_seeking") with (Some (PFloat ob)).
  change (current_from_controls _ !! "empathy_expectation") with (Some (PFloat em)).
  change (current_from_controls _ !! "directness") with (Some (PFloat di)).
  change (current_from_controls _ !! "informativeness") with (Some (PFloat inf)).
  change (current_from_controls _ !! "assistant_role") with (Some (PStr ro)).
  cbn [field_changed is_number float_of_number option_map].
  rewrite !apart_diag, String.eqb_refl. reflexivity.
Qed.

(** ** Where a turn stops *)

(** X13.  The prompt is built with [.2f] on the seven continuous
    fields, so a turn whose mental model holds anything but a number
    there (a string from the service, say) stops at step 3 with an
    exception: no response call is sent, nothing is logged and the turn
    counter stays, but the user message, the model of the turn and the
    assumptions are already stored. *)
Theorem turn_stops_without_numeric_fields s i u :
  preamble_ready (turn_mm_vals s i u) = false ->
  let o := run_turn s i u in
  out_raised o = true
  /\ filter is_response_call (out_events o) = []
  /\ messages (out_state o) = messages s ++ [ {| role := "user"; content := u |} ]
  /\ mm_values (out_state o) = turn_mm_vals s i u
  /\ assumptions_latest (out_state o) = Some (turn_assumptions s i u).1
  /\ turn_logs (out_state o) = turn_logs s
  /\ turn_index (out_state o) = turn_index s.
Proof.
  intros Hr. cbv zeta. rewrite run_turn_eq.
  destruct (turn_prompt s i u) as [p|] eqn:Hp.
  - apply turn_prompt_ready in Hp. congruence.
  - cbn [raised out_raised out_events out_state after_inference messages mm_values
         assumptions_latest turn_logs turn_index].
    rewrite inference_events_response_calls. repeat split; reflexivity.
Qed.

(** X14.  A stored model from which the sidebar cannot be built (a
    role that is not one of the four options, a field [float()] or the
    slider rejects) stops every later run before the lock check and the chat
    input: the state never changes again and nothing is shown or
    sent. *)
Theorem sidebar_failure_is_permanent runs : forall s,
  shown_controls (mm_values s) = None ->
  Forall (fun st => st = s) (session s runs)
  /\ forall i, script_run s i = raised s [].
Proof.
  intros s Hs.
  assert (Hrun : forall i, script_run s i = raised s [])
    by (intros i; unfold script_run; rewrite Hs; reflexivity).
  split; [|exact Hrun].
  induction runs as [|i runs IH]; cbn [session]; [constructor|].
  rewrite Hrun. cbn [raised out_state]. constructor; [reflexivity|exact IH].
Qed.

(** X15.  The requests of a processed turn, in order: the mental-model
    request with the submitted message alone, on the first turn and
    while unlocked; then the assumptions request with the transcript
    that ends with the submitted message; then, if the prompt could be
    built, the response request with that prompt.  Nothing else is
    sent, and nothing at all when the sidebar or the lock check
    raises. *)
Theorem turn_requests_in_order s i u :
  user_input i = Some u -> u <> "" -> api_key i <> "" ->
  filter is_external_call (out_events (script_run s i)) =
  match shown_controls (mm_values s), lock_check s (widgets i) with
  | Some _, Some s1 =>
      (if (turn_index s1 =? 0) || negb (mm_locked s1)
       then [CallMentalModel (mm_model_name i) u] else [])
      ++ [CallAssumptions (assumptions_model_name i)
            (build_history_text (messages s1 ++ [ {| role := "user"; content := u |} ]))]
      ++ match turn_prompt s1 i u with
         | Some p => [CallResponse (response_model_name i) p]
         | None => []
         end
  | _, _ => []
  end.
Proof.
  intros Hu Hne Hk. unfold script_run.
  destruct (shown_controls _); [|reflexivity].
  destruct (lock_check s (widgets i)) as [s1|]; [|reflexivity].
  cbn [prepend out_events]. rewrite filter_app.
  assert (Hshow : filter is_external_call (show_messages s1) = []).
  { unfold show_messages. induction (messages s1) as [|m ms IH]; [reflexivity|].
    cbn [fmap list_fmap]. rewrite filter_cons_False by (cbn; auto). exact IH. }
  rewrite Hshow. cbn [app].
  rewrite (turn_execution_eq s1 i u Hu Hne Hk), run_turn_eq.
  assert (Hinf : filter is_external_call (inference_events s1 i u) =
                 (if infers s1 then [CallMentalModel (mm_model_name i) u] else [])
                 ++ [CallAssumptions (assumptions_model_name i)
                       (build_history_text (messages s1 ++ [user_message u]))]).
  { unfold inference_events, turn_assumptions, infer_uncertain_assumptions_with_llm,
      infer_mental_model_with_llm.
    destruct (infers s1); destruct (assumptions_try _); try destruct (mm_try _);
      reflexivity. }
  fold (infers s1). fold (user_message u).
  destruct (turn_prompt s1 i u) as [p|]; cbv zeta.
  - destruct (response_reply _ _ _ _);
      cbn [finished raised out_events]; rewrite !filter_app, Hinf, <- app_assoc;
      [destruct (turn_index s1 =? 0)|]; reflexivity.
  - cbn [raised out_events]. rewrite Hinf. reflexivity.
Qed.

(** X16.  A run without a submitted message (a widget was moved, or
    the page was rerun) sends nothing: it only shows the transcript, and
    the only thing it can change is to lock the model onto the values of
    the controls. *)
Theorem run_without_message_sends_nothing s i :
  user_input i = None \/ user_input i = Some "" ->
  let o := script_run s i in
  filter is_external_call (out_events o) = []
  /\ (out_state o = s
      \/ (mm_locked s = false
          /\ out_state o = set_mm_values (current_from_controls (widgets i))
                             (set_mm_locked true s))).
Proof.
  intros Hu. cbv zeta. unfold script_run.
  destruct (shown_controls _); [|cbn; auto].
  destruct (lock_check s (widgets i)) as [s1|] eqn:E; [|cbn; auto].
  assert (Ht : turn_execution s1 i = finished s1 []).
  { unfold turn_execution. destruct Hu as [-> | ->]; reflexivity. }
  rewrite Ht. cbn [prepend finished out_events out_state]. rewrite app_nil_r.
  split.
  - unfold show_messages. induction (messages s1) as [|m ms IH]; [reflexivity|].
    cbn [fmap list_fmap]. rewrite filter_cons_False by (cbn; auto). exact IH.
  - destruct (lock_check_lists _ _ _ E) as (_ & _ & _ & _ & _ & [->|[Hl ->]]); auto.
Qed.

(** ** The Assumption Inferencer on a probability it cannot convert *)

Lemma clean_items_raises items item :
  item ∈ items -> probability_converts item = false -> clean_items items = None.
Proof.
  intros Hin Hc. induction items as [|x items IH]; [by apply elem_of_nil in Hin|].
  cbn [clean_items]. apply elem_of_cons in Hin as [<-|Hin].
  - destruct (clean_item_cases item) as [(Hk & _)|[(_ & _ & ->)|(_ & Hy & _)]];
      [|reflexivity|congruence].
    exfalso. revert Hk Hc. unfold has_both_keys, probability_converts.
    destruct item as [| | | | | |d]; try discriminate.
    destruct (d !! "assumption"); [|discriminate].
    destruct (d !! "probability"); [|discriminate].
    rewrite !bool_decide_eq_true_2 by eauto. discriminate.
  - rewrite (IH Hin). destruct (clean_item x) as [[e|]|]; reflexivity.
Qed.

(** X17.  One entry among the first ten that has both keys and a
    probability [float()] rejects ([null], a list, an object, a string
    that is no number) discards the whole reply: the inferencer returns
    the empty list with the warning, whatever the other entries are. *)
Theorem one_bad_probability_discards_all svc convo key model l item :
  assumptions_list (assumptions_reply svc key model convo) = Some l ->
  item ∈ take 10 l ->
  probability_converts item = false ->
  infer_uncertain_assumptions_with_llm svc convo key model
  = ({| assumptions := [] |},
     [CallAssumptions model convo; Warning assumptions_warning]).
Proof.
  intros Hl Hin Hc. unfold infer_uncertain_assumptions_with_llm.
  rewrite assumptions_try_eq, Hl, (clean_items_raises _ _ Hin Hc). reflexivity.
Qed.

(** X18.  The clamp is idempotent: a probability that went through
    [max(0.0, min(1.0, prob))] is left as it is by a second pass, so a
    cleaned entry fed back is not changed. *)
Theorem clamp01_idempotent p : clamp01 (clamp01 p) = clamp01 p.
Proof.
  rewrite (clamp01_cases p).
  destruct (PrimFloat.ltb p 1) eqn:H1; [|vm_compute; reflexivity].
  destruct (PrimFloat.ltb 0 p) eqn:H0; [|vm_compute; reflexivity].
  rewrite clamp01_cases, H1, H0. reflexivity.
Qed.

(** ** The rendered transcript *)

Lemma string_app_assoc (a b c : string) : (a +:+ b) +:+ c = a +:+ (b +:+ c).
Proof.
  induction a as [|ch a IH]; [reflexivity|].
  change (String ch ((a +:+ b) +:+ c) = String ch (a +:+ (b +:+ c))).
  f_equal. exact IH.
Qed.

Lemma concat_snoc sep (l : list string) x :
  l <> [] -> String.concat sep (l ++ [x]) = String.concat sep l +:+ sep +:+ x.
Proof.
  induction l as [|a l IH]; [congruence|]. intros _.
  destruct l as [|b l]; [reflexivity|].
  change (String.concat sep ((a :: b :: l) ++ [x]))
    with (a +:+ sep +:+ String.concat sep ((b :: l) ++ [x])).
  rewrite IH by discriminate.
  change (String.concat sep (a :: b :: l))
    with (a +:+ sep +:+ String.concat sep (b :: l)).
  rewrite !string_app_assoc. reflexivity.
Qed.

(** X19.  [build_history_text] renders one line per message, joined by
    newlines with none at the end: the empty transcript gives the empty
    string, and one more message adds a newline and its line.  A line
    is labelled [User] for the role [user] and [Assistant] for any other
    role. *)
Theorem history_text_grows_by_one_line ms m :
  build_history_text [] = ""
  /\ build_history_text [m] = history_line m
  /\ (ms <> [] ->
      build_history_text (ms ++ [m])
      = build_history_text ms +:+ newline +:+ history_line m)
  /\ history_line m
     = (if bool_decide (role m = "user") then "User: " else "Assistant: ") +:+ content m.
Proof.
  split; [reflexivity|]. split; [reflexivity|]. split.
  - intros Hne. unfold build_history_text. rewrite fmap_app.
    apply concat_snoc. destruct ms; [congruence|discriminate].
  - unfold history_line. destruct (String.eqb_spec (role m) "user") as [E|E].
    + rewrite bool_decide_eq_true_2 by exact E. reflexivity.
    + rewrite bool_decide_eq_false_2 by exact E. reflexivity.
Qed.

(** * Properties of the analysis script *)

Lemma or_empty_dict_dict d : or_empty_dict (PDict d) = PDict d.
Proof.
  unfold or_empty_dict, py_bool. case_bool_decide as E; [rewrite E|]; reflexivity.
Qed.

Lemma or_empty_dict_missing v :
  py_bool v = false -> or_empty_dict v = PDict ∅.
Proof. unfold or_empty_dict. intros ->. reflexivity. Qed.

Lemma signal_score_empty signal : signal_score (PDict ∅) signal = Some PNone.
Proof. reflexivity. Qed.

Lemma row_of_turn_empty_support path cat (d t : dict) :
  turn_support (PDict t) = Some (PDict ∅) ->
  row_of_turn path cat (PDict d) (PDict t)
  = Some {| file_path := path; category := cat;
            prompt_id := default PNone (d !! "prompt_id");
            turnIndex := default PNone (t !! "turnIndex");
            informational := PNone; validation_esteem := PNone; emotional := PNone |}.
Proof. unfold row_of_turn. intros ->. reflexivity. Qed.

Lemma row_of_turn_fields path cat doc turn r :
  row_of_turn path cat doc turn = Some r ->
  exists d t, doc = PDict d /\ turn = PDict t
    /\ file_path r = path /\ category r = cat
    /\ prompt_id r = default PNone (d !! "prompt_id")
    /\ turnIndex r = default PNone (t !! "turnIndex").
Proof.
  unfold row_of_turn. destruct (turn_support turn) as [support|] eqn:Es; [|discriminate].
  cbn [mbind option_bind].
  destruct doc as [| | | | | |d]; try discriminate.
  destruct turn as [| | | | | |t]; try discriminate.
  cbn [py_get mbind option_bind].
  destruct (signal_score support "informational"); [|discriminate].
  destruct (signal_score support "validation_esteem"); [|discriminate].
  destruct (signal_score support "emotional"); [|discriminate].
  cbn [mbind option_bind]. intros [= <-]. exists d, t. repeat split; reflexivity.
Qed.

Lemma load_and_flatten_raises files f :
  f ∈ files ->
  (forall doc, jf_doc f = Some doc -> rows_of_doc (jf_path f) (jf_category f) doc = None) ->
  is_Some (jf_doc f) ->
  load_and_flatten files = None.
Proof.
  intros Hin Hr [doc Hd]. induction files as [|g files IH]; [by apply elem_of_nil in Hin|].
  cbn [load_and_flatten]. apply elem_of_cons in Hin as [<-|Hin].
  - rewrite Hd, (Hr doc Hd). reflexivity.
  - rewrite (IH Hin). destruct (jf_doc g) as [doc'|]; [|reflexivity].
    destruct (rows_of_doc _ _ doc'); reflexivity.
Qed.

(** X20.  The scores of a row are read at the path
    [mentalModel.mental_model.support_seeking.<signal>.score] of the
    turn: when the four levels are objects, each score is the value
    under [score], or [None] where that key is absent; the row carries
    the prompt id of the document and the turn index of the turn, [None]
    where absent. *)
Theorem row_reads_scores_at_path path cat (d t w m sp x1 x2 x3 : dict) :
  t !! "mentalModel" = Some (PDict w) ->
  w !! "mental_model" = Some (PDict m) ->
  m !! "support_seeking" = Some (PDict sp) ->
  sp !! "informational" = Some (PDict x1) ->
  sp !! "validation_esteem" = Some (PDict x2) ->
  sp !! "emotional" = Some (PDict x3) ->
  row_of_turn path cat (PDict d) (PDict t)
  = Some {| file_path := path; category := cat;
            prompt_id := default PNone (d !! "prompt_id");
            turnIndex := default PNone (t !! "turnIndex");
            informational := default PNone (x1 !! "score");
            validation_esteem := default PNone (x2 !! "score");
            emotional := default PNone (x3 !! "score") |}.
Proof.
  intros Hw Hm Hsp H1 H2 H3.
  unfold row_of_turn, turn_support, signal_score. cbn [py_get].
  rewrite Hw. cbn [from_option id mbind option_bind]. rewrite or_empty_dict_dict.
  cbn [py_get]. rewrite Hm. cbn [from_option id mbind option_bind py_get].
  rewrite Hsp. cbn [from_option id mbind option_bind]. rewrite or_empty_dict_dict.
  cbn [py_get]. rewrite H1, H2, H3. cbn [from_option id mbind option_bind].
  rewrite !or_empty_dict_dict. reflexivity.
Qed.

(** X21.  A level that is missing gives empty scores, not an error:
    when [mentalModel] is absent or falsy, when the key [mental_model]
    is absent, or when [support_seeking] is absent or falsy, the turn
    still gives a row, with [None] in the three score columns. *)
Theorem missing_levels_give_empty_scores path cat (d t : dict) :
  reads_missing (t !! "mentalModel") = true
  \/ (exists w, t !! "mentalModel" = Some (PDict w)
       /\ (w !! "mental_model" = None
           \/ exists m, w !! "mental_model" = Some (PDict m)
                /\ reads_missing (m !! "support_seeking") = true)) ->
  row_of_turn path cat (PDict d) (PDict t)
  = Some {| file_path := path; category := cat;
            prompt_id := default PNone (d !! "prompt_id");
            turnIndex := default PNone (t !! "turnIndex");
            informational := PNone; validation_esteem := PNone; emotional := PNone |}.
Proof.
  intros H. apply row_of_turn_empty_support. unfold turn_support. cbn [py_get].
  destruct H as [H|(w & Hw & H)].
  - assert (E : or_empty_dict (default PNone (t !! "mentalModel")) = PDict ∅).
    { destruct (t !! "mentalModel") as [x|]; [|reflexivity].
      apply or_empty_dict_missing. unfold reads_missing in H.
      apply negb_true_iff in H. exact H. }
    cbn [mbind option_bind]. rewrite E. reflexivity.
  - rewrite Hw. cbn [from_option id mbind option_bind]. rewrite or_empty_dict_dict.
    cbn [py_get]. destruct H as [H|(m & Hm & H)].
    + rewrite H. reflexivity.
    + rewrite Hm. cbn [from_option id mbind option_bind py_get].
      destruct (m !! "support_seeking") as [x|]; [|reflexivity].
      cbn [from_option id mbind option_bind]. f_equal.
      apply or_empty_dict_missing. unfold reads_missing in H.
      apply negb_true_iff in H. exact H.
Qed.

(** X22.  The key [mental_model] is read without [or {}]: a value
    under it that is not an object ([null] included) raises on the next
    [.get], outside the [try], and the exception leaves
    [load_and_flatten]: one such turn in one file and no table at all is
    produced. *)
Theorem non_object_mental_model_aborts files f (d t w : dict) l v :
  f ∈ files ->
  jf_doc f = Some (PDict d) ->
  d !! "turns" = Some (PList l) ->
  PDict t ∈ l ->
  t !! "mentalModel" = Some (PDict w) ->
  w !! "mental_model" = Some v ->
  (forall m, v <> PDict m) ->
  load_and_flatten files = None.
Proof.
  intros Hin Hd Hl Ht Hw Hv Hn.
  apply (load_and_flatten_raises files f Hin); [|eauto].
  intros doc Hdoc. rewrite Hd in Hdoc. injection Hdoc as <-.
  unfold rows_of_doc. cbn [py_get]. rewrite Hl. cbn [from_option id mbind option_bind].
  apply mapM_None_2, Exists_exists. exists (PDict t). split; [exact Ht|].
  unfold row_of_turn, turn_support. cbn [py_get]. rewrite Hw.
  cbn [from_option id mbind option_bind]. rewrite or_empty_dict_dict. cbn [py_get].
  rewrite Hv. cbn [from_option id mbind option_bind].
  destruct v; try reflexivity. exfalso. eapply Hn. reflexivity.
Qed.

(** X23.  Files that cannot be opened or parsed never stop the run:
    they are counted in [bad_json] and skipped, and the rows are those of
    the other files, in the order of the files. *)
Theorem unreadable_files_counted_and_skipped files :
  load_and_flatten files =
  rows ← mapM (fun f => doc ← jf_doc f; rows_of_doc (jf_path f) (jf_category f) doc)
              (filter (fun f => is_Some (jf_doc f)) files);
  Some (concat rows, length (filter (fun f => jf_doc f = None) files)).
Proof.
  induction files as [|f files IH]; [reflexivity|].
  cbn [load_and_flatten]. rewrite IH. destruct (jf_doc f) as [doc|] eqn:Ed.
  - rewrite (filter_cons_True (fun f => is_Some (jf_doc f))) by (exists doc; exact Ed).
    rewrite (filter_cons_False (fun f => jf_doc f = None)) by (rewrite Ed; discriminate).
    cbn [mapM]. rewrite Ed. cbn [mbind option_bind].
    destruct (rows_of_doc _ _ doc) as [here|]; [|reflexivity].
    cbn [mbind option_bind].
    destruct (mapM _ _) as [rows|]; reflexivity.
  - rewrite (filter_cons_False (fun f => is_Some (jf_doc f)))
      by (rewrite Ed; intros [? ?]; discriminate).
    rewrite (filter_cons_True (fun f => jf_doc f = None)) by exact Ed.
    destruct (mapM _ _) as [rows|]; reflexivity.
Qed.

(** X24.  A document that is read gives one row per turn, in the order
    of the turns, each with the path and the category of the file, the
    prompt id of the document and the turn index of its turn; a document
    without [turns], or whose [turns] is not a list, gives no row. *)
Theorem one_row_per_turn path cat doc rows :
  rows_of_doc path cat doc = Some rows ->
  exists d, doc = PDict d
    /\ length rows = match d !! "turns" with
                     | Some (PList l) => length l
                     | _ => 0%nat
                     end
    /\ forall (k : nat) r, rows !! k = Some r ->
         file_path r = path /\ category r = cat
         /\ prompt_id r = default PNone (d !! "prompt_id")
         /\ exists l t, d !! "turns" = Some (PList l) /\ l !! k = Some (PDict t)
                        /\ turnIndex r = default PNone (t !! "turnIndex").
Proof.
  unfold rows_of_doc. destruct doc as [| | | | | |d]; try discriminate.
  cbn [py_get mbind option_bind]. intros H. exists d. split; [reflexivity|].
  destruct (d !! "turns") as [[| | | | |l|]|] eqn:El; cbn [from_option id] in H;
    try (injection H as <-; split; [reflexivity|];
         intros k r Hk; rewrite lookup_nil in Hk; discriminate).
  apply mapM_Some_1 in H. split; [symmetry; exact (Forall2_length _ _ _ H)|].
  intros k r Hk. destruct (Forall2_lookup_r _ _ _ _ _ H Hk) as (turn & Hl & Hrow).
  apply row_of_turn_fields in Hrow as (d' & t & [= <-] & -> & Hp & Hc & Hpid & Hti).
  repeat split; try assumption. exists l, t. repeat split; assumption.
Qed.
End Script.

(** * Examples: the statements above at concrete inputs *)

(** X4 at the reply of a failed call: defaults and a warning. *)
Lemma mental_model_fallback_on_failed_call :
  let svc := fixed_service None None None in
  let out := infer_mental_model_with_llm svc "hello" "key" "gpt-5.1-mini" in
  (forall d, mental_model_reply svc "key" "gpt-5.1-mini" "hello" <> Some (PDict d))
  /\ out.1 = DEFAULT_MM
  /\ out.2 = [CallMentalModel "gpt-5.1-mini" "hello"; Warning mm_warning].
Proof.
  assert (H : forall d,
    mental_model_reply (fixed_service None None None) "key" "gpt-5.1-mini" "hello"
    <> Some (PDict d)) by (intros d; discriminate).
  destruct (mental_model_fallback (fixed_service None None None)
              "hello" "key" "gpt-5.1-mini") as (_ & Hn & _).
  destruct (Hn H) as (H1 & H2 & _).
  split; [exact H|]. split; [exact H1|]. apply H2. reflexivity.
Defined.

(** C5.  The specification has every reply that is not an object caught
    as an error and answered with a warning and the defaults, as the
    Assumption Inferencer does after its shape test.  The Mental-Model
    Inferencer has no shape test: on the JSON array [[]] every membership
    test [k in mm] is false, nothing is raised, and the defaults are
    returned with no warning. *)
Theorem array_reply_gives_defaults_without_warning :
  let svc := fixed_service (Some reply_array) None None in
  let out := infer_mental_model_with_llm svc "hello" "key" "gpt-5.1-mini" in
  mental_model_reply svc "key" "gpt-5.1-mini" "hello" = Some (PList [])
  /\ out.1 = DEFAULT_MM
  /\ out.2 = [CallMentalModel "gpt-5.1-mini" "hello"].
Proof. repeat split. Qed.

(** C2 at the example of the specification: [directness] moved from 0.5
    to 0.6 after the first turn locks the model on the submitted values. *)
Lemma lock_fires_on_moved_directness :
  let s := after_first_turn DEFAULT_MM in
  let i := rerun moved_controls in
  (0 < turn_index s /\ mm_locked s = false /\ schema_typed (mm_values s) = true
   /\ is_Some (shown_controls sample_float_of_str sample_slider_accepts (mm_values s)))
  /\ exists s',
       lock_check s moved_controls = Some s'
       /\ mm_locked s' = true
       /\ mm_values s' = current_from_controls moved_controls
       /\ mm_locked
            (out_state (script_run sample_float_of_str sample_repr sample_format_2f
                          sample_slider_accepts s i)) = true.
Proof.
  assert (H1 : 0 < turn_index (after_first_turn DEFAULT_MM)) by (cbn; lia).
  assert (H2 : mm_locked (after_first_turn DEFAULT_MM) = false) by reflexivity.
  assert (H3 : schema_typed (mm_values (after_first_turn DEFAULT_MM)) = true)
    by (vm_compute; reflexivity).
  assert (H4 : is_Some (shown_controls sample_float_of_str sample_slider_accepts
                          (mm_values (after_first_turn DEFAULT_MM))))
    by (vm_compute; eexists; reflexivity).
  split; [auto|].
  destruct (lock_fires_iff_controls_differ sample_float_of_str sample_repr
              sample_format_2f sample_slider_accepts (after_first_turn DEFAULT_MM)
              (rerun moved_controls) H1 H2 H3 H4)
    as (s' & Hs & _ & Hiff & Hrun & _ & Hfire).
  assert (Hd : controls_differ moved_controls (mm_values (after_first_turn DEFAULT_MM)) = true)
    by (vm_compute; reflexivity).
  exists s'. split; [exact Hs|]. split; [apply Hiff; exact Hd|].
  split; [destruct (Hfire Hd) as [-> _]; reflexivity|].
  apply Hrun. exact Hd.
Defined.

(** C2 as first stated fails on a snapshot that is not typed as the data
    model says.  The inferencer stores the reply's values as they come;
    with [expects_correction] stored as 0.9999995 the check box shows
    [True], which is not equal to 0.9999995, yet the lock does not fire:
    the stored value is a number, so the tolerance test is applied.  The
    sidebar is built, the cycle reaches the lock check and ends in the
    state it started from. *)
Lemma lock_silent_on_near_boolean :
  let s := after_first_turn mm_near_boolean in
  turn_index s = 1
  /\ mm_locked s = false
  /\ controls_differ default_controls (mm_values s) = true
  /\ lock_check s default_controls = Some s
  /\ shown_controls sample_float_of_str sample_slider_accepts (mm_values s)
     = Some default_controls
  /\ out_state (script_run sample_float_of_str sample_repr sample_format_2f
                  sample_slider_accepts s (rerun default_controls)) = s.
Proof. vm_compute. repeat split. Qed.

(** C3.  The specification, like the comment above the lock check, has
    the flag set on the first change the user makes to a control.  The
    check compares the controls with the stored values, and these are
    whatever the service sent: after a first turn whose mental-model
    reply is [{"expects_correction": null}], the controls that the
    untouched widgets return already differ from the stored values
    ([False != None]), and the next script run sets the flag with no
    change made by the user. *)
Theorem lock_fires_without_user_change :
  let svc := fixed_service (Some reply_null_boolean) None (Some "hi") in
  let s1 :=
    out_state (script_run sample_float_of_str sample_repr sample_format_2f sample_slider_accepts
                 initial_state (submit_hello "key" svc)) in
  let s2 :=
    out_state (script_run sample_float_of_str sample_repr sample_format_2f sample_slider_accepts
                 s1 (rerun unchecked_controls)) in
  turn_index s1 = 1
  /\ mm_locked s1 = false
  /\ mm_values s1 !! "expects_correction" = Some PNone
  /\ shown_controls sample_float_of_str sample_slider_accepts (mm_values s1) = Some unchecked_controls
  /\ mm_locked s2 = true.
Proof. vm_compute. repeat split. Qed.

(** C4 on the first turn with an API key: the model is inferred from the
    message, and the log entry carries the tag. *)
Lemma first_turn_infers_from_message :
  let i := submit_hello "key" (fixed_service (Some reply_out_of_range) None (Some "hi")) in
  let o := turn_execution sample_float_of_str sample_repr sample_format_2f initial_state i in
  (user_input i = Some "hello" /\ "hello" <> "" /\ api_key i <> "")
  /\ filter is_mm_call (out_events o) = [CallMentalModel "gpt-5.1-mini" "hello"]
  /\ mm_values (out_state o)
     = (infer_mental_model_with_llm (service i) "hello" "key" "gpt-5.1-mini").1.
Proof.
  set (i := submit_hello "key" (fixed_service (Some reply_out_of_range) None (Some "hi"))).
  assert (H1 : user_input i = Some "hello") by reflexivity.
  assert (H2 : "hello" <> "") by discriminate.
  assert (H3 : api_key i <> "") by discriminate.
  destruct (turn_selects_mental_model sample_float_of_str sample_repr sample_format_2f
              initial_state i "hello" H1 H2 H3) as (Hfirst & _).
  destruct (Hfirst eq_refl) as (Hv & Hc & _).
  cbv zeta. split; [auto|]. split; [exact Hc|exact Hv].
Defined.

(** C4 as first stated fails when the API-key field is empty: the
    message is submitted on the first turn, and nothing is inferred or
    recorded. *)
Lemma empty_key_first_turn_infers_nothing :
  let i := submit_hello "" (fixed_service (Some reply_out_of_range) None (Some "hi")) in
  let o := turn_execution sample_float_of_str sample_repr sample_format_2f initial_state i in
  turn_index initial_state = 0
  /\ user_input i = Some "hello"
  /\ out_events o = [Error api_key_error]
  /\ filter is_mm_call (out_events o) = []
  /\ out_state o = initial_state.
Proof. repeat split. Qed.

(** C8 on the first turn. *)
Lemma missing_api_key_on_first_turn :
  let i := submit_hello "" (fixed_service None None None) in
  let o := turn_execution sample_float_of_str sample_repr sample_format_2f initial_state i in
  (user_input i = Some "hello" /\ "hello" <> "" /\ api_key i = "")
  /\ out_state o = initial_state
  /\ out_events o = [Error api_key_error].
Proof.
  set (i := submit_hello "" (fixed_service None None None)).
  assert (H1 : user_input i = Some "hello") by reflexivity.
  assert (H2 : "hello" <> "") by discriminate.
  assert (H3 : api_key i = "") by reflexivity.
  destruct (missing_api_key_aborts_turn sample_float_of_str sample_repr sample_format_2f sample_slider_accepts
              initial_state i "hello" H1 H2 H3) as (Hs & He & _).
  cbv zeta. split; [auto|]. split; [exact Hs|exact He].
Defined.

(** C9 on the first turn, with both inference calls failing and the
    response call raising. *)
Lemma response_failure_on_first_turn :
  let i := submit_hello "key" (fixed_service None None None) in
  let o := turn_execution sample_float_of_str sample_repr sample_format_2f initial_state i in
  (user_input i = Some "hello" /\ "hello" <> "" /\ api_key i <> "")
  /\ out_raised o = true
  /\ messages (out_state o) = [ {| role := "user"; content := "hello" |} ]
  /\ turn_logs (out_state o) = []
  /\ turn_index (out_state o) = 0.
Proof.
  set (i := submit_hello "key" (fixed_service None None None)).
  assert (H1 : user_input i = Some "hello") by reflexivity.
  assert (H2 : "hello" <> "") by discriminate.
  assert (H3 : api_key i <> "") by discriminate.
  destruct (turn_prompt sample_repr sample_format_2f initial_state i "hello")
    as [p|] eqn:Hp;
    [|vm_compute in Hp; discriminate].
  assert (H5 : response_reply (service i) (api_key i) (response_model_name i) p = None)
    by reflexivity.
  destruct (response_failure_keeps_stored_results sample_float_of_str sample_repr
              sample_format_2f initial_state i "hello" p H1 H2 H3 Hp H5)
    as (Hr & Hm & _ & _ & _ & Hl & Ht & _).
  cbv zeta. split; [auto|]. split; [exact Hr|].
  split; [exact Hm|]. split; [exact Hl|exact Ht].
Defined.


(** C7 on a reply with five entries: the three complete ones are kept,
    converted and clamped, the other two are dropped. *)
Lemma mixed_reply_keeps_complete_entries :
  let svc := fixed_service None (Some reply_mixed) None in
  let out :=
    infer_uncertain_assumptions_with_llm sample_float_of_str sample_repr
      svc "User: hello" "key" "gpt-5.1-mini" in
  assumptions out.1
  = [ {| assumption := "a"; probability := 1; evidence := "" |};
      {| assumption := "c"; probability := 0; evidence := "" |};
      {| assumption := "d"; probability := 0.7; evidence := "" |} ]
  /\ out.2 = [CallAssumptions "gpt-5.1-mini" "User: hello"].
Proof.
  set (svc := fixed_service None (Some reply_mixed) None).
  pose proof (assumptions_drop_only_incomplete sample_float_of_str sample_repr
                svc "User: hello" "key" "gpt-5.1-mini") as [_ H].
  cbv zeta in H.
  assert (Hl : assumptions_list (assumptions_reply svc "key" "gpt-5.1-mini" "User: hello")
               = Some [ entry "a" (PFloat 1.5); PDict {[ "assumption" := PStr "b" ]};
                        PStr "junk"; entry "c" (PFloat (-0.3));
                        entry "d" (PStr "0.7") ]) by reflexivity.
  assert (Hc : Forall (fun item => probability_converts sample_float_of_str item = true)
                 (take 10 [ entry "a" (PFloat 1.5); PDict {[ "assumption" := PStr "b" ]};
                            PStr "junk"; entry "c" (PFloat (-0.3));
                            entry "d" (PStr "0.7") ]))
    by (repeat constructor).
  destruct (H _ Hl Hc) as [_ Hev]. cbv zeta. split; [vm_compute; reflexivity|exact Hev].
Defined.

(** C7 as first stated fails on a reply whose top level has the expected
    shape: when no entry is complete the empty list is returned with no
    shape failure and no warning.  (When the probability of a complete
    entry is [null], [float()] raises and the whole list is lost, the
    complete entry before it included.) *)
Lemma empty_list_without_shape_failure :
  let run reply :=
    infer_uncertain_assumptions_with_llm sample_float_of_str sample_repr
      (fixed_service None (Some reply) None) "User: hello" "key" "gpt-5.1-mini" in
  assumptions_list (Some reply_incomplete_entry)
  = Some [ PDict {[ "assumption" := PStr "a" ]} ]
  /\ run reply_incomplete_entry
     = ({| assumptions := [] |}, [CallAssumptions "gpt-5.1-mini" "User: hello"])
  /\ assumptions_list (Some reply_null_probability)
     = Some [ entry "a" (PFloat 0.5); entry "b" PNone ]
  /\ run reply_null_probability
     = ({| assumptions := [] |},
        [CallAssumptions "gpt-5.1-mini" "User: hello"; Warning assumptions_warning]).
Proof. repeat split. Qed.

(** C10 on the second entry of a reply of two entries without evidence. *)
Lemma second_entry_without_evidence_kept :
  let svc :=
    fixed_service None
      (Some (assumptions_object [ entry "a" (PFloat 0.5); entry "b" (PInt 1) ])) None in
  {| assumption := "b"; probability := 1; evidence := "" |}
  ∈ assumptions (infer_uncertain_assumptions_with_llm sample_float_of_str sample_repr
                   svc "User: hello" "key" "gpt-5.1-mini").1.
Proof.
  set (svc := fixed_service None
      (Some (assumptions_object [ entry "a" (PFloat 0.5); entry "b" (PInt 1) ])) None).
  assert (Hl : assumptions_list (assumptions_reply svc "key" "gpt-5.1-mini" "User: hello")
               = Some [ entry "a" (PFloat 0.5); entry "b" (PInt 1) ]) by reflexivity.
  assert (Hc : Forall (fun item => probability_converts sample_float_of_str item = true)
                 (take 10 [ entry "a" (PFloat 0.5); entry "b" (PInt 1) ]))
    by (repeat constructor).
  destruct (entry_without_evidence_kept sample_float_of_str sample_repr
              svc "User: hello" "key" "gpt-5.1-mini" _ 1%nat
              (<[ "assumption" := PStr "b" ]> {[ "probability" := PInt 1 ]})
              (PStr "b") (PInt 1) Hl Hc ltac:(lia) eq_refl eq_refl eq_refl eq_refl)
    as (f & Hf & Hin).
  cbv zeta. injection Hf as <-.
  replace (clamp01 (SF2Prim (binary_normalize prec emax 1 0 false))) with 1%float in Hin
    by (vm_compute; reflexivity).
  exact Hin.
Defined.

(** C10 as first stated fails on an entry after the tenth: of eleven
    complete entries without evidence the first ten are kept and the
    eleventh is not. *)
Lemma eleventh_entry_not_kept :
  let out :=
    infer_uncertain_assumptions_with_llm sample_float_of_str sample_repr
      (fixed_service None (Some reply_eleven) None) "User: hello" "key" "gpt-5.1-mini" in
  assumption <$> assumptions out.1
  = [ "a1"; "a2"; "a3"; "a4"; "a5"; "a6"; "a7"; "a8"; "a9"; "a10" ]
  /\ out.2 = [CallAssumptions "gpt-5.1-mini" "User: hello"].
Proof. vm_compute. repeat split. Qed.

(** X2 on the default mental model. *)
Lemma default_controls_do_not_lock :
  schema_typed DEFAULT_MM = true
  /\ shown_controls sample_float_of_str sample_slider_accepts DEFAULT_MM = Some default_controls
  /\ changed (control_items default_controls) DEFAULT_MM = Some false.
Proof.
  assert (H1 : schema_typed DEFAULT_MM = true) by (vm_compute; reflexivity).
  assert (H2 : shown_controls sample_float_of_str sample_slider_accepts DEFAULT_MM = Some default_controls)
    by (vm_compute; reflexivity).
  split; [exact H1|]. split; [exact H2|].
  exact (shown_controls_unchanged sample_float_of_str sample_slider_accepts DEFAULT_MM default_controls H1 H2).
Defined.

(** X3 on the reply [{"user_certainty": 1.5}]: that field is copied, the
    field [directness] keeps its default. *)
Lemma out_of_range_field_copied :
  let svc := fixed_service (Some reply_out_of_range) None None in
  let out := infer_mental_model_with_llm svc "hello" "key" "gpt-5.1-mini" in
  out.1 !! "user_certainty" = Some (PFloat 1.5)
  /\ out.1 !! "directness" = Some (PFloat 0.5).
Proof.
  set (svc := fixed_service (Some reply_out_of_range) None None).
  assert (H : mental_model_reply svc "key" "gpt-5.1-mini" "hello"
              = Some (PDict {[ "user_certainty" := PFloat 1.5 ]})) by reflexivity.
  cbv zeta. split.
  - rewrite (infer_mental_model_field svc "hello" "key" "gpt-5.1-mini" _
               "user_certainty" H). reflexivity.
  - rewrite (infer_mental_model_field svc "hello" "key" "gpt-5.1-mini" _
               "directness" H). reflexivity.
Defined.

(** * Examples for the further properties *)

Lemma after_three_runs_reached :
  after_three_runs sample_float_of_str sample_repr sample_format_2f sample_slider_accepts
  ∈ initial_state
    :: session sample_float_of_str sample_repr sample_format_2f sample_slider_accepts initial_state three_runs.
Proof. apply (list_elem_of_lookup_2 _ 3%nat). vm_compute. reflexivity. Qed.

Lemma after_three_runs_second_entry :
  exists e,
    turn_logs (after_three_runs sample_float_of_str sample_repr sample_format_2f sample_slider_accepts) !! 1%nat
    = Some e
    /\ log_user_message e = "more" /\ log_mm_locked e = true.
Proof. vm_compute. eexists. split; [reflexivity|]. split; reflexivity. Qed.

(** X5 after a first turn, a moved control and a second turn. *)
Lemma three_runs_numbered :
  let st := after_three_runs sample_float_of_str sample_repr sample_format_2f sample_slider_accepts in
  st ∈ initial_state
       :: session sample_float_of_str sample_repr sample_format_2f sample_slider_accepts initial_state three_runs
  /\ length (turn_logs st) = 2%nat
  /\ turn_index st = Z.of_nat (length (turn_logs st))
  /\ Z.of_nat (assistant_count (messages st)) = turn_index st
  /\ (log_turn_index <$> turn_logs st) = [1; 2].
Proof.
  cbv zeta.
  destruct (session_turns_numbered sample_float_of_str sample_repr sample_format_2f sample_slider_accepts
              three_runs _ after_three_runs_reached) as (H1 & H2 & _).
  split; [exact after_three_runs_reached|].
  split; [vm_compute; reflexivity|].
  split; [exact H1|]. split; [exact H2|]. vm_compute. reflexivity.
Defined.

(** X6 at the entry of the second turn. *)
Lemma second_entry_matches_transcript :
  let st := after_three_runs sample_float_of_str sample_repr sample_format_2f sample_slider_accepts in
  exists e,
    e ∈ turn_logs st /\ log_user_message e = "more"
    /\ (exists ms,
          log_conversation_so_far e
          = ms ++ [ {| role := "user"; content := log_user_message e |};
                    {| role := "assistant"; content := log_assistant_message e |} ])
    /\ log_conversation_so_far e `prefix_of` messages st.
Proof.
  cbv zeta. destruct after_three_runs_second_entry as (e & He & Hu & _).
  apply list_elem_of_lookup_2 in He.
  exists e. split; [exact He|]. split; [exact Hu|].
  exact (session_logs_match_transcript sample_float_of_str sample_repr sample_format_2f sample_slider_accepts
           three_runs _ e after_three_runs_reached He).
Defined.

(** X7 after the three runs: two turns, two history entries. *)
Lemma three_runs_assumptions_recorded :
  let st := after_three_runs sample_float_of_str sample_repr sample_format_2f sample_slider_accepts in
  (h_turn_index <$> assumptions_history st) = [1; 2]
  /\ assumptions_latest st = h_assumptions <$> last (assumptions_history st)
  /\ (forall h, h ∈ assumptions_history st -> 1 <= h_turn_index h <= turn_index st + 1)
  /\ (forall e, e ∈ turn_logs st ->
        exists h, h ∈ assumptions_history st
                  /\ h_turn_index h = log_turn_index e
                  /\ h_assumptions h = log_assumptions e).
Proof.
  cbv zeta. split; [vm_compute; reflexivity|].
  exact (session_assumptions_recorded sample_float_of_str sample_repr sample_format_2f sample_slider_accepts
           three_runs _ after_three_runs_reached).
Defined.

(** X8 after the three runs, at a key of the model and at another
    string. *)
Lemma three_runs_model_keys :
  let st := after_three_runs sample_float_of_str sample_repr sample_format_2f sample_slider_accepts in
  "directness" ∈ mm_keys
  /\ is_Some (mm_values st !! "directness")
  /\ (is_Some (mm_values st !! "mood") <-> "mood" ∈ mm_keys).
Proof.
  cbv zeta.
  assert (Hk : "directness" ∈ mm_keys)
    by (apply (list_elem_of_lookup_2 _ 6%nat); reflexivity).
  split; [exact Hk|]. split.
  - apply (session_mental_model_keys sample_float_of_str sample_repr sample_format_2f sample_slider_accepts
             three_runs _ "directness" after_three_runs_reached). exact Hk.
  - exact (session_mental_model_keys sample_float_of_str sample_repr sample_format_2f sample_slider_accepts
             three_runs _ "mood" after_three_runs_reached).
Defined.

(** X9 after the three runs: the first turn inferred, the second
    locked. *)
Lemma three_runs_log_tags :
  let st := after_three_runs sample_float_of_str sample_repr sample_format_2f sample_slider_accepts in
  (log_mental_model_source <$> turn_logs st) = ["inferred_first_turn"; "user_locked"]
  /\ (mm_locked st = true -> turn_index st <> 0)
  /\ forall e, e ∈ turn_logs st ->
       (log_mental_model_source e = "user_locked" <-> log_mm_locked e = true)
       /\ (log_mental_model_source e = "inferred_first_turn" <-> log_turn_index e = 1)
       /\ (log_mental_model_source e = "inferred_unlocked"
           <-> log_mm_locked e = false /\ log_turn_index e <> 1).
Proof.
  cbv zeta. split; [vm_compute; reflexivity|].
  exact (session_log_tags sample_float_of_str sample_repr sample_format_2f sample_slider_accepts
           three_runs _ after_three_runs_reached).
Defined.

(** X10 at the entry of the second turn, logged while locked. *)
Lemma second_entry_has_locked_model :
  let st := after_three_runs sample_float_of_str sample_repr sample_format_2f sample_slider_accepts in
  exists e,
    e ∈ turn_logs st /\ log_mm_locked e = true
    /\ preamble_ready (log_mental_model e) = true
    /\ mm_locked st = true
    /\ log_mental_model e = mm_values st.
Proof.
  cbv zeta. destruct after_three_runs_second_entry as (e & He & _ & Hl).
  apply list_elem_of_lookup_2 in He.
  destruct (session_locked_model_frozen sample_float_of_str sample_repr sample_format_2f sample_slider_accepts
              three_runs _ e after_three_runs_reached He) as [Hr Hf].
  destruct (Hf Hl) as [Hs Hm].
  exists e. repeat split; assumption.
Defined.

(** X11 from the initial state to the state after the three runs. *)
Lemma three_runs_append_only :
  let st := after_three_runs sample_float_of_str sample_repr sample_format_2f sample_slider_accepts in
  st ∈ session sample_float_of_str sample_repr sample_format_2f sample_slider_accepts initial_state three_runs
  /\ length (messages st) = 4%nat
  /\ messages initial_state `prefix_of` messages st
  /\ turn_logs initial_state `prefix_of` turn_logs st
  /\ assumptions_history initial_state `prefix_of` assumptions_history st
  /\ turn_index initial_state <= turn_index st.
Proof.
  cbv zeta.
  assert (H : after_three_runs sample_float_of_str sample_repr sample_format_2f sample_slider_accepts
              ∈ session sample_float_of_str sample_repr sample_format_2f sample_slider_accepts
                  initial_state three_runs)
    by (apply (list_elem_of_lookup_2 _ 2%nat); vm_compute; reflexivity).
  split; [exact H|]. split; [vm_compute; reflexivity|].
  exact (session_append_only sample_float_of_str sample_repr sample_format_2f sample_slider_accepts
           three_runs initial_state _ H).
Defined.

(** X12 at the controls with [directness] moved to 0.8. *)
Lemma blunt_controls_round_trip :
  assistant_role blunt_controls ∈ role_options
  /\ shown_controls sample_float_of_str sample_slider_accepts (current_from_controls blunt_controls)
     = Some blunt_controls
  /\ schema_typed (current_from_controls blunt_controls) = true
  /\ changed (control_items blunt_controls) (current_from_controls blunt_controls)
     = Some false.
Proof.
  assert (H : assistant_role blunt_controls ∈ role_options)
    by (apply (list_elem_of_lookup_2 _ 0%nat); reflexivity).
  split; [exact H|].
  exact (controls_round_trip sample_float_of_str sample_slider_accepts blunt_controls H).
Defined.

(** X13 on a first turn whose mental-model reply is
    [{"directness": "high"}]. *)
Lemma string_field_stops_first_turn :
  let i := submit default_controls "hello" (chat_service reply_directness_string) in
  let o := run_turn sample_float_of_str sample_repr sample_format_2f
             initial_state i "hello" in
  mm_values (out_state o) !! "directness" = Some (PStr "high")
  /\ out_raised o = true
  /\ filter is_response_call (out_events o) = []
  /\ messages (out_state o) = [ {| role := "user"; content := "hello" |} ]
  /\ turn_logs (out_state o) = []
  /\ turn_index (out_state o) = 0.
Proof.
  cbv zeta.
  assert (H : preamble_ready
                (turn_mm_vals initial_state
                   (submit default_controls "hello" (chat_service reply_directness_string))
                   "hello") = false) by (vm_compute; reflexivity).
  destruct (turn_stops_without_numeric_fields sample_float_of_str sample_repr
              sample_format_2f initial_state _ "hello" H)
    as (H1 & H2 & H3 & H4 & _ & H6 & H7).
  split; [rewrite H4; vm_compute; reflexivity|].
  repeat split; assumption.
Defined.

(** X14 after a first turn in which the service gave the role
    ["Coach"]: the turn completes, and no later run gets past the
    sidebar. *)
Lemma coach_role_stops_the_session :
  let s := after_coach_turn sample_float_of_str sample_repr sample_format_2f sample_slider_accepts in
  let runs := [ rerun default_controls;
                submit default_controls "again" (chat_service (PDict ∅)) ] in
  turn_index s = 1
  /\ shown_controls sample_float_of_str sample_slider_accepts (mm_values s) = None
  /\ Forall (fun st => st = s)
       (session sample_float_of_str sample_repr sample_format_2f sample_slider_accepts s runs)
  /\ forall i, script_run sample_float_of_str sample_repr sample_format_2f sample_slider_accepts s i
               = raised s [].
Proof.
  cbv zeta.
  assert (H : shown_controls sample_float_of_str sample_slider_accepts
                (mm_values (after_coach_turn sample_float_of_str sample_repr
                              sample_format_2f sample_slider_accepts)) = None) by (vm_compute; reflexivity).
  split; [vm_compute; reflexivity|]. split; [exact H|].
  exact (sidebar_failure_is_permanent sample_float_of_str sample_repr sample_format_2f sample_slider_accepts
           _ _ H).
Defined.

(** X15 on a turn of the locked session: no mental-model request; and
    on a message submitted after an unlocked turn stored [Infinity] in
    [directness]: the slider raises and nothing is sent. *)
Lemma locked_turn_requests :
  let s := after_three_runs sample_float_of_str sample_repr sample_format_2f
             sample_slider_accepts in
  let i := submit blunt_controls "again" (chat_service (PDict ∅)) in
  let s_inf := after_first_turn mm_infinite_directness in
  (exists p,
     turn_prompt sample_repr sample_format_2f s i "again" = Some p
     /\ filter is_external_call
          (out_events (script_run sample_float_of_str sample_repr sample_format_2f
                         sample_slider_accepts s i))
        = [ CallAssumptions "gpt-5.1-mini"
              (build_history_text
                 (messages s ++ [ {| role := "user"; content := "again" |} ]));
            CallResponse "gpt-5.1" p ])
  /\ shown_controls sample_float_of_str sample_slider_accepts (mm_values s_inf) = None
  /\ filter is_external_call
       (out_events (script_run sample_float_of_str sample_repr sample_format_2f
                      sample_slider_accepts s_inf i)) = [].
Proof.
  cbv zeta.
  assert (Hu : user_input (submit blunt_controls "again" (chat_service (PDict ∅)))
               = Some "again") by reflexivity.
  assert (Hne : "again" <> "") by discriminate.
  assert (Hk : api_key (submit blunt_controls "again" (chat_service (PDict ∅))) <> "")
    by discriminate.
  split.
  - pose proof (turn_requests_in_order sample_float_of_str sample_repr sample_format_2f
                  sample_slider_accepts
                  (after_three_runs sample_float_of_str sample_repr sample_format_2f
                     sample_slider_accepts)
                  _ "again" Hu Hne Hk) as H.
    assert (Hs : exists c, shown_controls sample_float_of_str sample_slider_accepts
                   (mm_values (after_three_runs sample_float_of_str sample_repr
                                 sample_format_2f sample_slider_accepts)) = Some c)
      by (vm_compute; eexists; reflexivity).
    destruct Hs as [c Hs]. rewrite Hs in H.
    assert (Hl : lock_check (after_three_runs sample_float_of_str sample_repr
                               sample_format_2f sample_slider_accepts)
                   (widgets (submit blunt_controls "again" (chat_service (PDict ∅))))
                 = Some (after_three_runs sample_float_of_str sample_repr
                           sample_format_2f sample_slider_accepts))
      by (vm_compute; reflexivity).
    rewrite Hl in H.
    assert (Hi : (turn_index (after_three_runs sample_float_of_str sample_repr
                                sample_format_2f sample_slider_accepts) =? 0)
                 || negb (mm_locked (after_three_runs sample_float_of_str sample_repr
                                       sample_format_2f sample_slider_accepts)) = false)
      by (vm_compute; reflexivity).
    rewrite Hi in H.
    assert (Hp : exists p, turn_prompt sample_repr sample_format_2f
                   (after_three_runs sample_float_of_str sample_repr sample_format_2f
                      sample_slider_accepts)
                   (submit blunt_controls "again" (chat_service (PDict ∅))) "again" = Some p)
      by (vm_compute; eexists; reflexivity).
    destruct Hp as [p Hp]. rewrite Hp in H.
    exists p. split; [exact Hp|exact H].
  - assert (Hs : shown_controls sample_float_of_str sample_slider_accepts
                   (mm_values (after_first_turn mm_infinite_directness)) = None)
      by (vm_compute; reflexivity).
    split; [exact Hs|].
    pose proof (turn_requests_in_order sample_float_of_str sample_repr sample_format_2f
                  sample_slider_accepts (after_first_turn mm_infinite_directness)
                  _ "again" Hu Hne Hk) as H.
    rewrite Hs in H. exact H.
Defined.

(** X16 on a rerun after the first turn with [directness] moved: the
    run locks the model and sends nothing. *)
Lemma moved_control_rerun_sends_nothing :
  let s := after_first_turn DEFAULT_MM in
  let o := script_run sample_float_of_str sample_repr sample_format_2f sample_slider_accepts s
             (rerun blunt_controls) in
  mm_locked (out_state o) = true
  /\ filter is_external_call (out_events o) = []
  /\ (out_state o = s
      \/ (mm_locked s = false
          /\ out_state o = set_mm_values (current_from_controls blunt_controls)
                             (set_mm_locked true s))).
Proof.
  cbv zeta. split; [vm_compute; reflexivity|].
  exact (run_without_message_sends_nothing sample_float_of_str sample_repr
           sample_format_2f sample_slider_accepts (after_first_turn DEFAULT_MM) (rerun blunt_controls)
           (or_introl eq_refl)).
Defined.

(** X17 on a reply whose second entry has the probability [null]: the
    first entry, complete and in range, is discarded with it. *)
Lemma null_probability_discards_all :
  let svc := fixed_service None (Some reply_null_probability) None in
  let item := entry "b" PNone in
  item ∈ take 10 [ entry "a" (PFloat 0.5); item ]
  /\ probability_converts sample_float_of_str item = false
  /\ infer_uncertain_assumptions_with_llm sample_float_of_str sample_repr
       svc "User: hello" "key" "gpt-5.1-mini"
     = ({| assumptions := [] |},
        [ CallAssumptions "gpt-5.1-mini" "User: hello";
          Warning assumptions_warning ]).
Proof.
  cbv zeta.
  assert (Hl : assumptions_list
                 (assumptions_reply (fixed_service None (Some reply_null_probability) None)
                    "key" "gpt-5.1-mini" "User: hello")
               = Some [ entry "a" (PFloat 0.5); entry "b" PNone ])
    by (vm_compute; reflexivity).
  assert (Hin : entry "b" PNone ∈ take 10 [ entry "a" (PFloat 0.5); entry "b" PNone ])
    by (apply (list_elem_of_lookup_2 _ 1%nat); reflexivity).
  assert (Hc : probability_converts sample_float_of_str (entry "b" PNone) = false)
    by (vm_compute; reflexivity).
  split; [exact Hin|]. split; [exact Hc|].
  exact (one_bad_probability_discards_all sample_float_of_str sample_repr _
           "User: hello" "key" "gpt-5.1-mini" _ _ Hl Hin Hc).
Defined.

(** X20 on a turn with the scores 0.2, 1 and no emotional score. *)
Lemma scored_turn_row :
  let x1 : dict := {[ "score" := PFloat 0.2 ]} in
  let x2 : dict := {[ "score" := PInt 1 ]} in
  let x3 : dict := ∅ in
  let sp : dict :=
    <[ "informational" := PDict x1 ]>
      (<[ "validation_esteem" := PDict x2 ]> {[ "emotional" := PDict x3 ]}) in
  let m : dict := {[ "support_seeking" := PDict sp ]} in
  let w : dict := {[ "mental_model" := PDict m ]} in
  let t : dict := <[ "turnIndex" := PInt 1 ]> {[ "mentalModel" := PDict w ]} in
  row_of_turn "support/advice/c1.json" "advice" (PDict (conversation [PDict t])) (PDict t)
  = Some {| file_path := "support/advice/c1.json"; category := "advice";
            prompt_id := PStr "p1"; turnIndex := PInt 1;
            informational := PFloat 0.2; validation_esteem := PInt 1;
            emotional := PNone |}.
Proof.
  intros x1 x2 x3 sp m w t.
  exact (row_reads_scores_at_path "support/advice/c1.json" "advice"
           (conversation [PDict t]) t w m sp x1 x2 x3
           eq_refl eq_refl eq_refl eq_refl eq_refl eq_refl).
Defined.

(** X21 on a turn whose [mentalModel] is [null]. *)
Lemma null_wrapper_gives_empty_scores :
  let t : dict := <[ "turnIndex" := PInt 3 ]> {[ "mentalModel" := PNone ]} in
  reads_missing (t !! "mentalModel") = true
  /\ row_of_turn "support/advice/c1.json" "advice" (PDict (conversation [PDict t])) (PDict t)
     = Some {| file_path := "support/advice/c1.json"; category := "advice";
               prompt_id := PStr "p1"; turnIndex := PInt 3;
               informational := PNone; validation_esteem := PNone;
               emotional := PNone |}.
Proof.
  intros t. split; [reflexivity|].
  exact (missing_levels_give_empty_scores "support/advice/c1.json" "advice"
           (conversation [PDict t]) t (or_introl eq_refl)).
Defined.

(** X22 on three files, the second of which has a turn with
    ["mental_model": null]. *)
Lemma null_mental_model_aborts_the_run :
  let good := {| jf_path := "support/advice/c1.json"; jf_category := "advice";
                 jf_doc := Some (PDict (conversation
                   [ PDict (scored_turn 1 (PFloat 0.2) (PInt 1) PNone) ])) |} in
  let bad := {| jf_path := "support/advice/c2.json"; jf_category := "advice";
                jf_doc := Some (PDict (conversation
                  [ PDict (scored_turn 1 (PFloat 0.2) (PInt 1) PNone);
                    PDict null_model_turn ])) |} in
  let unreadable := {| jf_path := "support/advice/c3.json"; jf_category := "advice";
                       jf_doc := None |} in
  load_and_flatten [good; unreadable] <> None
  /\ load_and_flatten [good; bad; unreadable] = None.
Proof.
  cbv zeta. split; [vm_compute; discriminate|].
  eapply (non_object_mental_model_aborts _ _ _ null_model_turn _ _ PNone).
  - apply (list_elem_of_lookup_2 _ 1%nat). reflexivity.
  - reflexivity.
  - reflexivity.
  - apply (list_elem_of_lookup_2 _ 1%nat). reflexivity.
  - reflexivity.
  - reflexivity.
  - intros m. discriminate.
Defined.

(** X24 on a document with two turns. *)
Lemma two_turns_two_rows :
  let doc := PDict (conversation
               [ PDict (scored_turn 1 (PFloat 0.2) (PInt 1) PNone);
                 PDict (scored_turn 2 (PFloat 0.4) (PInt 2) (PFloat 0.1)) ]) in
  exists rows,
    rows_of_doc "support/advice/c1.json" "advice" doc = Some rows
    /\ (turnIndex <$> rows) = [PInt 1; PInt 2]
    /\ exists d, doc = PDict d
         /\ length rows = match d !! "turns" with
                          | Some (PList l) => length l
                          | _ => 0%nat
                          end
         /\ forall (k : nat) r, rows !! k = Some r ->
              file_path r = "support/advice/c1.json" /\ category r = "advice"
              /\ prompt_id r = default PNone (d !! "prompt_id")
              /\ exists l t, d !! "turns" = Some (PList l) /\ l !! k = Some (PDict t)
                             /\ turnIndex r = default PNone (t !! "turnIndex").
Proof.
  cbv zeta.
  assert (E : exists rows,
    rows_of_doc "support/advice/c1.json" "advice"
      (PDict (conversation
               [ PDict (scored_turn 1 (PFloat 0.2) (PInt 1) PNone);
                 PDict (scored_turn 2 (PFloat 0.4) (PInt 2) (PFloat 0.1)) ])) = Some rows
    /\ (turnIndex <$> rows) = [PInt 1; PInt 2])
    by (vm_compute; eexists; split; reflexivity).
  destruct E as (rows & E & Hi). exists rows. split; [exact E|]. split; [exact Hi|].
  exact (one_row_per_turn _ _ _ _ E).
Defined.
